(** * ICE TestPortal integration: token lifecycle and access-code exchange

    A shallow embedding of the serverless backend
    ([src/lib/tokens.ts], [src/lib/secrets.ts], [src/lib/testportal.ts],
    [src/handlers/requestToken.ts], [src/handlers/getAccessCode.ts]).

    The Lambda code is asynchronous TypeScript talking to DynamoDB, Secrets
    Manager and the TestPortal HTTP API.  Every [await] is modelled as a
    step of a small monad that threads the state of the outside world,
    may throw a JavaScript exception, and records the calls that leave the
    process.  Console output is not part of the model, except where the
    evaluation of a logged expression can itself throw. *)

From Stdlib Require Import Ascii String ZArith Lia.
From stdpp Require Import gmap strings pretty.

Local Open Scope string_scope.
Set Warnings "-register-all".

(** ** JavaScript values *)

(** Values as [JSON.parse] or an SDK hands them to the code, plus
    [undefined].  Numbers only matter to this program through [typeof] and
    truthiness, so they are integers here. *)
Inductive JSValue : Type :=
| JUndefined
| JNull
| JBool (b : bool)
| JNum (n : Z)
| JStr (s : string)
| JArr (items : list JSValue)
| JObj (fields : list (string * JSValue)).

(** [!!v] *)
Definition truthy (v : JSValue) : bool :=
  match v with
  | JUndefined | JNull => false
  | JBool b => b
  | JNum n => negb (n =? 0)%Z
  | JStr s => negb (String.eqb s "")
  | JArr _ | JObj _ => true
  end.

Definition typeof (v : JSValue) : string :=
  match v with
  | JUndefined => "undefined"
  | JNull => "object"
  | JBool _ => "boolean"
  | JNum _ => "number"
  | JStr _ => "string"
  | JArr _ | JObj _ => "object"
  end.

(** [a || b] *)
Definition js_or (a b : JSValue) : JSValue := if truthy a then a else b.

(** Own property of an object literal; a key that occurs twice keeps its
    last value, as in [JSON.parse]. *)
Fixpoint field (k : string) (fs : list (string * JSValue)) : option JSValue :=
  match fs with
  | [] => None
  | (k', v) :: rest =>
      match field k rest with
      | Some v' => Some v'
      | None => if String.eqb k k' then Some v else None
      end
  end.

(** Thrown values: an [Error] instance with its [name] and [message], or
    anything else. *)
Inductive Exn : Type :=
| JsError (name message : string)
| JsNonError.

Inductive Outcome (A : Type) : Type :=
| Returns (a : A)
| Throws (e : Exn).
Arguments Returns {A} a.
Arguments Throws {A} e.

Definition TypeError_null_property (v : JSValue) (k : string) : Exn :=
  JsError "TypeError"
    ("Cannot read properties of "
       ++ match v with JNull => "null" | _ => "undefined" end
       ++ " (reading '" ++ k ++ "')").
Definition TypeError_not_a_function : Exn :=
  JsError "TypeError" "accessCode.substring is not a function".
Definition RangeError_invalid_time : Exn :=
  JsError "RangeError" "Invalid time value".

(** [v.k] for the property names this program reads ([token], [testId],
    [apiKey], [api_key], [accessCodes], [accessCode], [access_code],
    [code]): none of them is a built-in property of strings, numbers,
    booleans or arrays.  Reading a property of [null] or [undefined]
    throws. *)
Definition get_prop (v : JSValue) (k : string) : Outcome JSValue :=
  match v with
  | JUndefined | JNull => Throws (TypeError_null_property v k)
  | JObj fs => Returns (default JUndefined (field k fs))
  | _ => Returns JUndefined
  end.

(** [v?.k] *)
Definition get_prop_opt (v : JSValue) (k : string) : JSValue :=
  match v with
  | JObj fs => default JUndefined (field k fs)
  | _ => JUndefined
  end.

(** [v?.[0]] : first element of an array, first character of a string,
    property ["0"] of an object. *)
Definition get_first_opt (v : JSValue) : JSValue :=
  match v with
  | JArr (x :: _) => x
  | JStr (String c _) => JStr (String c "")
  | JObj fs => default JUndefined (field "0" fs)
  | _ => JUndefined
  end.

(** [JSON.parse] and [JSON.stringify] are the runtime's; the handlers are
    verified for any implementation of them.  [None] is a [SyntaxError]. *)
Class JSON : Type := {
  JSON_parse : string -> option JSValue;
  JSON_stringify : JSValue -> string
}.

(** ** The outside world *)

(** Token record structure stored in DynamoDB.  The read path casts the
    stored item to this shape without checking it, so the two numeric
    attributes are kept as what [ToNumber] makes of them: [Some z] for a
    number, [None] for [NaN] (attribute absent or not numeric). *)
Record TokenRecord : Type := {
  token : string;
  ttl : option Z;
  createdAt : option Z
}.

Record FetchRequest : Type := {
  url : string;
  method : string;
  req_headers : list (string * JSValue);
  req_body : string
}.

(** A [fetch] response: [text()] and [json()] read the body and may fail. *)
Record Response : Type := {
  status : Z;
  statusText : string;
  text : Outcome string;
  json : Outcome JSValue
}.

(** [response.ok] *)
Definition ok (r : Response) : bool :=
  (200 <=? status r)%Z && (status r <=? 299)%Z.

Record World : Type := {
  (** [Date.now()], milliseconds since the epoch *)
  Date_now : Z;
  (** the values [crypto.randomUUID()] yields, and how many were drawn *)
  uuid_source : nat -> string;
  uuid_drawn : nat;
  (** [process.env] *)
  env : gmap string string;
  (** the DynamoDB tokens table; [Some e] when the service call fails *)
  table : gmap string TokenRecord;
  dynamo_fault : option Exn;
  (** Secrets Manager: [SecretString] of a secret, or the error thrown *)
  secretsManager : string -> Outcome (option string);
  (** the module-level [secretsCache] of this Lambda container *)
  secretsCache : gmap string string;
  (** the TestPortal API as seen through [fetch] *)
  provider : FetchRequest -> Outcome Response
}.

Definition set_table (t : gmap string TokenRecord) (w : World) : World :=
  {| Date_now := Date_now w; uuid_source := uuid_source w;
     uuid_drawn := uuid_drawn w; env := env w; table := t;
     dynamo_fault := dynamo_fault w; secretsManager := secretsManager w;
     secretsCache := secretsCache w; provider := provider w |}.

Definition set_secretsCache (c : gmap string string) (w : World) : World :=
  {| Date_now := Date_now w; uuid_source := uuid_source w;
     uuid_drawn := uuid_drawn w; env := env w; table := table w;
     dynamo_fault := dynamo_fault w; secretsManager := secretsManager w;
     secretsCache := c; provider := provider w |}.

Definition set_uuid_drawn (n : nat) (w : World) : World :=
  {| Date_now := Date_now w; uuid_source := uuid_source w;
     uuid_drawn := n; env := env w; table := table w;
     dynamo_fault := dynamo_fault w; secretsManager := secretsManager w;
     secretsCache := secretsCache w; provider := provider w |}.

Definition set_Date_now (ms : Z) (w : World) : World :=
  {| Date_now := ms; uuid_source := uuid_source w;
     uuid_drawn := uuid_drawn w; env := env w; table := table w;
     dynamo_fault := dynamo_fault w; secretsManager := secretsManager w;
     secretsCache := secretsCache w; provider := provider w |}.

Definition set_secretsManager (sm : string -> Outcome (option string))
    (w : World) : World :=
  {| Date_now := Date_now w; uuid_source := uuid_source w;
     uuid_drawn := uuid_drawn w; env := env w; table := table w;
     dynamo_fault := dynamo_fault w; secretsManager := sm;
     secretsCache := secretsCache w; provider := provider w |}.

(** Calls that leave the process. *)
Inductive Event : Type :=
| DynamoGet (key : string)
| DynamoPut (item : TokenRecord)
| SecretsManagerGet (secretId : string)
| ProviderFetch (req : FetchRequest).

Definition is_store_call (e : Event) : bool :=
  match e with DynamoGet _ | DynamoPut _ => true | _ => false end.

Definition is_provider_call (e : Event) : bool :=
  match e with ProviderFetch _ => true | _ => false end.

(** ** The monad of asynchronous code *)

Definition M (A : Type) : Type := World -> Outcome A * World * list Event.

Definition ret {A} (a : A) : M A := fun w => (Returns a, w, []).

Definition throw {A} (e : Exn) : M A := fun w => (Throws e, w, []).

Definition bind {A B} (m : M A) (k : A -> M B) : M B := fun w =>
  match m w with
  | (Returns a, w1, t1) =>
      match k a w1 with
      | (r, w2, t2) => (r, w2, (t1 ++ t2)%list)
      end
  | (Throws e, w1, t1) => (Throws e, w1, t1)
  end.

(** [try { m } catch (e) { h e }] *)
Definition try_catch {A} (m : M A) (h : Exn -> M A) : M A := fun w =>
  match m w with
  | (Returns a, w1, t1) => (Returns a, w1, t1)
  | (Throws e, w1, t1) =>
      match h e w1 with
      | (r, w2, t2) => (r, w2, (t1 ++ t2)%list)
      end
  end.

Definition lift {A} (o : Outcome A) : M A := fun w => (o, w, []).

Declare Scope js_scope.
Delimit Scope js_scope with js.
Notation "x <- m ;; k" := (bind m (fun x => k))
  (at level 100, m at next level, right associativity) : js_scope.
Notation "m ;; k" := (bind m (fun _ => k))
  (at level 100, right associativity) : js_scope.
Local Open Scope js_scope.

Definition result_of {A} (r : Outcome A * World * list Event) : Outcome A :=
  fst (fst r).
Definition world_of {A} (r : Outcome A * World * list Event) : World :=
  snd (fst r).
Definition calls_of {A} (r : Outcome A * World * list Event) : list Event :=
  snd r.

(** [new Date(seconds * 1000).toISOString()]: the text only reaches the
    console, but an invalid date (NaN, or beyond +-8.64e15 ms) makes
    [toISOString] throw a [RangeError]. *)
Definition Date_toISOString (seconds : option Z) : M unit :=
  match seconds with
  | Some s =>
      if (Z.abs (s * 1000) <=? 8640000000000000)%Z then ret tt
      else throw RangeError_invalid_time
  | None => throw RangeError_invalid_time
  end.

(** [a < n] where [n] is a number *)
Definition js_lt (a : option Z) (n : Z) : bool :=
  match a with
  | Some z => (z <? n)%Z
  | None => false
  end.

(** ** src/lib/tokens.ts *)
Module Tokens.

(** Token validity period: 15 minutes in seconds *)
Definition TOKEN_TTL_SECONDS : Z := 15 * 60.

(** [Math.floor(Date.now() / 1000)] *)
Definition nowSeconds : M Z := fun w => (Returns (Date_now w / 1000)%Z, w, []).

(** [s.replace(/-/g, '')] *)
Fixpoint remove_hyphens (s : string) : string :=
  match s with
  | EmptyString => EmptyString
  | String c rest =>
      if Ascii.eqb c "-"%char then remove_hyphens rest
      else String c (remove_hyphens rest)
  end.

Definition randomUUID : M string := fun w =>
  (Returns (uuid_source w (uuid_drawn w)), set_uuid_drawn (S (uuid_drawn w)) w, []).

Definition generateToken : M string :=
  u <- randomUUID ;; ret (remove_hyphens u).

(** [dynamoDbClient.send(new PutCommand({ TableName, Item }))] *)
Definition dynamo_put (item : TokenRecord) : M unit := fun w =>
  match dynamo_fault w with
  | Some e => (Throws e, w, [DynamoPut item])
  | None => (Returns tt, set_table (<[token item := item]> (table w)) w, [DynamoPut item])
  end.

(** [dynamoDbClient.send(new GetCommand({ TableName, Key }))], giving
    [result.Item] *)
Definition dynamo_get (key : string) : M (option TokenRecord) := fun w =>
  match dynamo_fault w with
  | Some e => (Throws e, w, [DynamoGet key])
  | None => (Returns (table w !! key), w, [DynamoGet key])
  end.

Definition storeToken (tok : string) : M unit :=
  now <- nowSeconds ;;
  let expires := (now + TOKEN_TTL_SECONDS)%Z in
  dynamo_put {| token := tok; ttl := Some expires; createdAt := Some now |} ;;
  Date_toISOString (Some expires).

Definition validateToken (tok : JSValue) : M bool :=
  if negb (truthy tok) || negb (String.eqb (typeof tok) "string") then
    ret false
  else
    match tok with
    | JStr t =>
        try_catch
          (result <- dynamo_get t ;;
           match result with
           | None => ret false
           | Some record =>
               now <- nowSeconds ;;
               if js_lt (ttl record) now then
                 Date_toISOString (ttl record) ;;
                 ret false
               else
                 Date_toISOString (createdAt record) ;;
                 Date_toISOString (ttl record) ;;
                 ret true
           end)
          (fun _ => ret false)
    | _ => ret false
    end.

End Tokens.

(** ** src/lib/secrets.ts *)
Module Secrets.

(** [process.env] *)
Definition process_env : M (gmap string string) := fun w => (Returns (env w), w, []).

(** [process.env[name]] *)
Definition getenv (name : string) : M (option string) := fun w =>
  (Returns (env w !! name), w, []).

(** [secretsClient.send(new GetSecretValueCommand({ SecretId }))], giving
    [response.SecretString] *)
Definition secrets_send (secretName : string) : M (option string) := fun w =>
  (secretsManager w secretName, w, [SecretsManagerGet secretName]).

Definition cache_get (secretName : string) : M (option string) := fun w =>
  (Returns (secretsCache w !! secretName), w, []).

Definition cache_set (secretName secretValue : string) : M unit := fun w =>
  (Returns tt, set_secretsCache (<[secretName := secretValue]> (secretsCache w)) w, []).

Definition getSecret (secretName : string) : M (option string) :=
  cached <- cache_get secretName ;;
  match cached with
  | Some v => ret (Some v)
  | None =>
      try_catch
        (secretValue <- secrets_send secretName ;;
         match secretValue with
         | None => ret None
         | Some v =>
             if String.eqb v "" then ret None
             else (cache_set secretName v ;; ret (Some v))
         end)
        (fun error =>
           match error with
           | JsError name _ =>
               if String.eqb name "ResourceNotFoundException" then ret None
               else ret None
           | JsNonError => ret None
           end)
  end.

Section WithJSON.
Context `{JSON}.

(** [JSON.parse(s)] inside a [try] *)
Definition parse (s : string) : M JSValue :=
  match JSON_parse s with
  | Some v => ret v
  | None => throw (JsError "SyntaxError" "Unexpected token in JSON")
  end.

(** [string | null] by its signature; [JNull] stands for [null]. *)
Definition getTestPortalApiKey : M JSValue :=
  secretName <- getenv "TESTPORTAL_SECRET_NAME" ;;
  match secretName with
  | None => ret JNull
  | Some secretName =>
      if String.eqb secretName "" then ret JNull
      else
        secretValue <- getSecret secretName ;;
        match secretValue with
        | None => ret JNull
        | Some secretValue =>
            if String.eqb secretValue "" then ret JNull
            else
              try_catch
                (parsed <- parse secretValue ;;
                 apiKey <- lift (get_prop parsed "apiKey") ;;
                 if truthy apiKey then ret apiKey
                 else
                   api_key <- lift (get_prop parsed "api_key") ;;
                   ret (js_or api_key (JStr secretValue)))
                (fun _ => ret (JStr secretValue))
        end
  end.

(** [string | null] by its signature; [JNull] stands for [null]. *)
Definition getAdminPassword : M JSValue :=
  secretName <- getenv "ADMIN_PASSWORD_SECRET_NAME" ;;
  match secretName with
  | None => ret JNull
  | Some secretName =>
      if String.eqb secretName "" then ret JNull
      else
        secretValue <- getSecret secretName ;;
        match secretValue with
        | None => ret JNull
        | Some secretValue =>
            if String.eqb secretValue "" then ret JNull
            else
              try_catch
                (parsed <- parse secretValue ;;
                 password <- lift (get_prop parsed "password") ;;
                 if truthy password then ret password
                 else
                   adminPassword <- lift (get_prop parsed "adminPassword") ;;
                   ret (js_or adminPassword (JStr secretValue)))
                (fun _ => ret (JStr secretValue))
        end
  end.

End WithJSON.

End Secrets.

(** ** src/lib/testportal.ts *)
Module TestPortal.

(** Mock access code returned when API key is not configured *)
Definition MOCK_ACCESS_CODE : string := "ABC123MOCK".

(** [process.env.TESTPORTAL_API_URL || 'https://www.testportal.com/api/v1'],
    a constant of the module once the environment is given *)
Definition TESTPORTAL_API_URL (environment : gmap string string) : string :=
  match environment !! "TESTPORTAL_API_URL" with
  | Some u => if String.eqb u "" then "https://www.testportal.com/api/v1" else u
  | None => "https://www.testportal.com/api/v1"
  end.

Record AccessCodeResult : Type := {
  success : bool;
  accessCode : option string;
  error : option string;
  isDevelopmentMode : option bool
}.

(** [await fetch(url, init)] *)
Definition fetch (req : FetchRequest) : M Response := fun w =>
  (provider w req, w, [ProviderFetch req]).

(** [accessCode.substring(0, 4)] in the success log: a truthy value that
    is not a string has no [substring] method. *)
Definition substring (v : JSValue) : M string :=
  match v with
  | JStr s => ret s
  | _ => throw TypeError_not_a_function
  end.

Section WithJSON.
Context `{JSON}.

Definition requestAccessCode (testId : string) : M AccessCodeResult :=
  apiKey <- Secrets.getTestPortalApiKey ;;
  if negb (truthy apiKey) then
    ret {| success := true; accessCode := Some MOCK_ACCESS_CODE;
           error := None; isDevelopmentMode := Some true |}
  else
    try_catch
      (environment <- Secrets.process_env ;;
       response <- fetch
         {| url := TESTPORTAL_API_URL environment ++ "/manager/me/tests/" ++ testId
                     ++ "/current-date/access-codes/add";
            method := "POST";
            req_headers := [("Content-Type", JStr "application/json");
                            ("Api-Key", apiKey)];
            req_body := JSON_stringify
              (JObj [("count", JNum 1);
                     ("sendInvitationOnTestActivation", JBool false)]) |} ;;
       if negb (ok response) then
         errorText <- lift (text response) ;;
         ret {| success := false; accessCode := None;
                error := Some ("TestPortal API returned "
                                 ++ pretty (status response) ++ ": "
                                 ++ statusText response);
                isDevelopmentMode := None |}
       else
         data <- lift (json response) ;;
         accessCodes <- lift (get_prop data "accessCodes") ;;
         let accessCodeEntry := get_first_opt accessCodes in
         let accessCode :=
           js_or (js_or (get_prop_opt accessCodeEntry "accessCode")
                        (get_prop_opt accessCodeEntry "access_code"))
                 (get_prop_opt accessCodeEntry "code") in
         if negb (truthy accessCode) then
           ret {| success := false; accessCode := None;
                  error := Some "TestPortal API response did not contain an access code";
                  isDevelopmentMode := None |}
         else
           code <- substring accessCode ;;
           ret {| success := true; accessCode := Some code;
                  error := None; isDevelopmentMode := None |})
      (fun error =>
         ret {| success := false; accessCode := None;
                error := Some match error with
                              | JsError _ message => message
                              | JsNonError => "Unknown error occurred"
                              end;
                isDevelopmentMode := None |}).

End WithJSON.

End TestPortal.

(** ** API Gateway proxy events and results *)

Record APIGatewayProxyEvent : Type := {
  httpMethod : string;
  headers : option (gmap string string);
  body : option string
}.

Record APIGatewayProxyResult : Type := {
  statusCode : Z;
  resultHeaders : list (string * string);
  resultBody : string
}.

(** [event.headers?.origin || event.headers?.Origin] *)
Definition origin_of (event : APIGatewayProxyEvent) : option string :=
  let lower := h ← headers event; h !! "origin" in
  let upper := h ← headers event; h !! "Origin" in
  match lower with
  | Some s => if String.eqb s "" then upper else Some s
  | None => upper
  end.

(** [originHeader !== allowed] *)
Definition origin_differs (originHeader : option string) (allowed : string) : bool :=
  match originHeader with
  | Some s => negb (String.eqb s allowed)
  | None => true
  end.

(** An optional string property of an object literal handed to
    [JSON.stringify]. *)
Definition optional_string (o : option string) : JSValue :=
  match o with
  | Some s => JStr s
  | None => JUndefined
  end.

(** ** src/handlers/requestToken.ts *)
Module RequestToken.

Definition ALLOWED_ORIGIN : string := "https://my.icecampus.com".

Definition corsHeaders : list (string * string) :=
  [("Access-Control-Allow-Origin", ALLOWED_ORIGIN);
   ("Access-Control-Allow-Methods", "POST,OPTIONS");
   ("Access-Control-Allow-Headers", "Content-Type")].

Section WithJSON.
Context `{JSON}.

Definition createResponse (statusCode : Z) (body : JSValue) : APIGatewayProxyResult :=
  {| statusCode := statusCode; resultHeaders := corsHeaders;
     resultBody := JSON_stringify body |}.

Definition handler (event : APIGatewayProxyEvent) : M APIGatewayProxyResult :=
  if String.eqb (httpMethod event) "OPTIONS" then
    ret {| statusCode := 204; resultHeaders := corsHeaders; resultBody := "" |}
  else if negb (String.eqb (httpMethod event) "POST") then
    ret (createResponse 405 (JObj [("message", JStr "Method not allowed")]))
  else
    let originHeader := origin_of event in
    if origin_differs originHeader ALLOWED_ORIGIN then
      ret (createResponse 403 (JObj [("message", JStr "Forbidden")]))
    else
      try_catch
        (tok <- Tokens.generateToken ;;
         Tokens.storeToken tok ;;
         ret (createResponse 200 (JObj [("token", JStr tok)])))
        (fun error =>
           ret (createResponse 500
                  (JObj [("message", JStr "Internal server error");
                         ("error", JStr match error with
                                        | JsError _ message => message
                                        | JsNonError => "Unknown error"
                                        end)]))).

End WithJSON.

End RequestToken.

(** ** src/handlers/getAccessCode.ts *)
Module GetAccessCode.

Definition ALLOWED_ORIGIN : string := "https://my.icecampus.com".

Definition corsHeaders : list (string * string) :=
  [("Access-Control-Allow-Origin", ALLOWED_ORIGIN);
   ("Access-Control-Allow-Methods", "POST,OPTIONS");
   ("Access-Control-Allow-Headers", "Content-Type")].

(** [typeof v === 'string' && v.length > 0] *)
Definition nonempty_string (v : JSValue) : bool :=
  String.eqb (typeof v) "string"
  && match v with
     | JStr s => (0 <? String.length s)%nat
     | _ => false
     end.

Definition validateRequestBody (body : JSValue) : bool :=
  if negb (truthy body) || negb (String.eqb (typeof body) "object") then false
  else
    let tok := get_prop_opt body "token" in
    let testId := get_prop_opt body "testId" in
    nonempty_string tok && nonempty_string testId.

Section WithJSON.
Context `{JSON}.

Definition createResponse (statusCode : Z) (body : JSValue) : APIGatewayProxyResult :=
  {| statusCode := statusCode; resultHeaders := corsHeaders;
     resultBody := JSON_stringify body |}.

Definition missing_fields : APIGatewayProxyResult :=
  createResponse 400
    (JObj [("message", JStr "Missing required fields: token and testId are required")]).

(** [event.body ? JSON.parse(event.body) : null]; [None] when
    [JSON.parse] throws *)
Definition parse_body (event : APIGatewayProxyEvent) : option JSValue :=
  match body event with
  | Some b => if String.eqb b "" then Some JNull else JSON_parse b
  | None => Some JNull
  end.

Definition handler (event : APIGatewayProxyEvent) : M APIGatewayProxyResult :=
  if String.eqb (httpMethod event) "OPTIONS" then
    ret {| statusCode := 204; resultHeaders := corsHeaders; resultBody := "" |}
  else if negb (String.eqb (httpMethod event) "POST") then
    ret (createResponse 405 (JObj [("message", JStr "Method not allowed")]))
  else
    let originHeader := origin_of event in
    if origin_differs originHeader ALLOWED_ORIGIN then
      ret (createResponse 403 (JObj [("message", JStr "Forbidden")]))
    else
      match parse_body event with
      | None =>
          ret (createResponse 400 (JObj [("message", JStr "Invalid JSON in request body")]))
      | Some requestBody =>
          if negb (validateRequestBody requestBody) then ret missing_fields
          else
            match get_prop_opt requestBody "token",
                  get_prop_opt requestBody "testId" with
            | JStr tok, JStr testId =>
                isValidToken <- Tokens.validateToken (JStr tok) ;;
                if negb isValidToken then
                  ret (createResponse 401 (JObj [("message", JStr "Invalid or expired token")]))
                else
                  result <- TestPortal.requestAccessCode testId ;;
                  if negb (TestPortal.success result) then
                    ret (createResponse 502
                           (JObj [("message", JStr "Failed to retrieve access code from TestPortal");
                                  ("error", optional_string (TestPortal.error result))]))
                  else
                    ret (createResponse 200
                           (JObj (("accessCode", optional_string (TestPortal.accessCode result))
                                  :: match TestPortal.isDevelopmentMode result with
                                     | Some true => [("_dev", JBool true)]
                                     | _ => []
                                     end)))
            | _, _ =>
                (* excluded by the type guard [validateRequestBody] *)
                ret missing_fields
            end
      end.

End WithJSON.

End GetAccessCode.

(** [a === b] for values of this program: strings, numbers, booleans,
    [null] and [undefined] by value; an object or array is only ever
    compared with a value that is not the same object. *)
Definition strict_eq (a b : JSValue) : bool :=
  match a, b with
  | JUndefined, JUndefined => true
  | JNull, JNull => true
  | JBool x, JBool y => Bool.eqb x y
  | JNum x, JNum y => (x =? y)%Z
  | JStr x, JStr y => String.eqb x y
  | _, _ => false
  end.

(** [event.headers?.[a] || event.headers?.[b]] *)
Definition header_either (event : APIGatewayProxyEvent) (a b : string) : option string :=
  let first := h ← headers event; h !! a in
  let second := h ← headers event; h !! b in
  match first with
  | Some s => if String.eqb s "" then second else Some s
  | None => second
  end.

(** ** The admin login handler (adminLogin) *)
Module AdminLogin.

Definition ALLOWED_ORIGIN : string := "https://testportalurl.icecampus.com".

Definition corsHeaders : list (string * string) :=
  [("Access-Control-Allow-Origin", ALLOWED_ORIGIN);
   ("Access-Control-Allow-Methods", "POST,OPTIONS");
   ("Access-Control-Allow-Headers", "Content-Type")].

Section WithJSON.
Context `{JSON}.

Definition createResponse (statusCode : Z) (body : JSValue) : APIGatewayProxyResult :=
  {| statusCode := statusCode; resultHeaders := corsHeaders;
     resultBody := JSON_stringify body |}.

Definition handler (event : APIGatewayProxyEvent) : M APIGatewayProxyResult :=
  if String.eqb (httpMethod event) "OPTIONS" then
    ret {| statusCode := 204; resultHeaders := corsHeaders; resultBody := "" |}
  else if negb (String.eqb (httpMethod event) "POST") then
    ret (createResponse 405 (JObj [("message", JStr "Method not allowed")]))
  else
    let originHeader := origin_of event in
    if origin_differs originHeader ALLOWED_ORIGIN then
      ret (createResponse 403 (JObj [("message", JStr "Forbidden")]))
    else
      match GetAccessCode.parse_body event with
      | None =>
          ret (createResponse 400 (JObj [("message", JStr "Invalid JSON in request body")]))
      | Some requestBody =>
          let password := get_prop_opt requestBody "password" in
          if negb (String.eqb (typeof password) "string")
             || match password with
                | JStr p => (String.length p =? 0)%nat
                | _ => false
                end then
            ret (createResponse 400 (JObj [("message", JStr "Password is required")]))
          else
            expectedPassword <- Secrets.getAdminPassword ;;
            if negb (truthy expectedPassword) then
              ret (createResponse 500
                     (JObj [("message", JStr "Admin password is not configured")]))
            else if negb (strict_eq password expectedPassword) then
              ret (createResponse 401 (JObj [("message", JStr "Invalid credentials")]))
            else
              ret (createResponse 200 (JObj [("ok", JBool true)]))
      end.

End WithJSON.

End AdminLogin.

(** ** The admin tests list handler (adminTests) *)

(** The WHATWG [URL] class of the runtime: [new URL(s)] ([None] when it
    throws a [TypeError]), [url.searchParams.set(k, v)] and
    [url.toString()]. *)
Class URLAPI : Type := {
  URL : Type;
  URL_new : string -> option URL;
  searchParams_set : URL -> string -> string -> URL;
  URL_toString : URL -> string
}.

(** An API Gateway event together with its [queryStringParameters]. *)
Record APIGatewayProxyQuery : Type := {
  request : APIGatewayProxyEvent;
  queryStringParameters : option (gmap string string)
}.

Module AdminTests.

Definition ALLOWED_ORIGIN : string := "https://testportalurl.icecampus.com".

Definition corsHeaders : list (string * string) :=
  [("Access-Control-Allow-Origin", ALLOWED_ORIGIN);
   ("Access-Control-Allow-Methods", "GET,OPTIONS");
   ("Access-Control-Allow-Headers", "Content-Type,X-Admin-Password,Authorization")].

(** Header values are taken with one character per code unit below 256.
    [\s] on these: TAB, LF, VT, FF, CR, SPACE and NBSP. *)
Definition is_space (c : ascii) : bool :=
  let n := nat_of_ascii c in
  ((9 <=? n) && (n <=? 13) || (n =? 32) || (n =? 160))%nat.

(** What [.] does not match: LF and CR. *)
Definition is_line_terminator (c : ascii) : bool :=
  let n := nat_of_ascii c in ((n =? 10) || (n =? 13))%nat.

(** Case folding of the [i] flag on a letter of the pattern. *)
Definition to_lower (c : ascii) : ascii :=
  let n := nat_of_ascii c in
  if ((65 <=? n) && (n <=? 90))%nat then ascii_of_nat (n + 32) else c.

(** [s] starts with [prefix], ignoring case; gives the rest of [s]. *)
Fixpoint strip_prefix_ci (prefix s : string) : option string :=
  match prefix, s with
  | EmptyString, _ => Some s
  | String p prefix', String c s' =>
      if Ascii.eqb (to_lower p) (to_lower c) then strip_prefix_ci prefix' s' else None
  | String _ _, EmptyString => None
  end.

(** [(.+)$] at the start of [s]: all of [s], when it is not empty and has
    no line terminator. *)
Fixpoint dot_plus_to_end (s : string) : bool :=
  match s with
  | EmptyString => false
  | String c EmptyString => negb (is_line_terminator c)
  | String c rest => negb (is_line_terminator c) && dot_plus_to_end rest
  end.

(** [\s*(.+)$] at the start of [s], the greedy [\s*] giving characters back
    only when the capture cannot match otherwise: the captured group. *)
Fixpoint spaces_then_capture (s : string) : option string :=
  match s with
  | EmptyString => None
  | String c rest =>
      if is_space c then
        match spaces_then_capture rest with
        | Some captured => Some captured
        | None => if dot_plus_to_end s then Some s else None
        end
      else if dot_plus_to_end s then Some s else None
  end.

(** [authHeader.match(/^Bearer\s+(.+)$/i)], giving [match[1]] *)
Definition match_bearer (authHeader : string) : option string :=
  match strip_prefix_ci "Bearer" authHeader with
  | Some (String c rest) => if is_space c then spaces_then_capture rest else None
  | _ => None
  end.

Definition extractPassword (event : APIGatewayProxyEvent) : option string :=
  let headerPassword := header_either event "x-admin-password" "X-Admin-Password" in
  match headerPassword with
  | Some p => if negb (String.eqb p "") then Some p
              else
                match header_either event "authorization" "Authorization" with
                | Some authHeader =>
                    if String.eqb authHeader "" then None else match_bearer authHeader
                | None => None
                end
  | None =>
      match header_either event "authorization" "Authorization" with
      | Some authHeader =>
          if String.eqb authHeader "" then None else match_bearer authHeader
      | None => None
      end
  end.

Section WithRuntime.
Context `{JSON} `{URLAPI}.

Definition createResponse (statusCode : Z) (body : JSValue) : APIGatewayProxyResult :=
  {| statusCode := statusCode; resultHeaders := corsHeaders;
     resultBody := JSON_stringify body |}.

Definition upstream_failed : APIGatewayProxyResult :=
  createResponse 502 (JObj [("message", JStr "Failed to retrieve tests list from TestPortal")]).

(** [query.k], truthy *)
Definition query_param (event : APIGatewayProxyQuery) (k : string) : option string :=
  match q ← queryStringParameters event; q !! k with
  | Some v => if String.eqb v "" then None else Some v
  | None => None
  end.

(** [new URL(...)] with the two optional search parameters set *)
Definition tests_url (event : APIGatewayProxyQuery) : M URL :=
  environment <- Secrets.process_env ;;
  match URL_new (TestPortal.TESTPORTAL_API_URL environment ++ "/manager/me/tests/headers") with
  | None => throw (JsError "TypeError" "Invalid URL")
  | Some url =>
      let url :=
        match query_param event "idTestCategory" with
        | Some v => searchParams_set url "idTestCategory" v
        | None => url
        end in
      let url :=
        match query_param event "name" with
        | Some v => searchParams_set url "name" v
        | None => url
        end in
      ret url
  end.

Definition handler (event : APIGatewayProxyQuery) : M APIGatewayProxyResult :=
  if String.eqb (httpMethod (request event)) "OPTIONS" then
    ret {| statusCode := 204; resultHeaders := corsHeaders; resultBody := "" |}
  else if negb (String.eqb (httpMethod (request event)) "GET") then
    ret (createResponse 405 (JObj [("message", JStr "Method not allowed")]))
  else
    let originHeader := origin_of (request event) in
    if origin_differs originHeader ALLOWED_ORIGIN then
      ret (createResponse 403 (JObj [("message", JStr "Forbidden")]))
    else
      match extractPassword (request event) with
      | None => ret (createResponse 401 (JObj [("message", JStr "Missing admin password")]))
      | Some password =>
          if String.eqb password "" then
            ret (createResponse 401 (JObj [("message", JStr "Missing admin password")]))
          else
            expectedPassword <- Secrets.getAdminPassword ;;
            if negb (truthy expectedPassword) then
              ret (createResponse 500
                     (JObj [("message", JStr "Admin password is not configured")]))
            else if negb (strict_eq (JStr password) expectedPassword) then
              ret (createResponse 401 (JObj [("message", JStr "Invalid credentials")]))
            else
              apiKey <- Secrets.getTestPortalApiKey ;;
              if negb (truthy apiKey) then
                ret (createResponse 500
                       (JObj [("message", JStr "TestPortal API key is not configured")]))
              else
                url <- tests_url event ;;
                try_catch
                  (response <- TestPortal.fetch
                     {| url := URL_toString url; method := "GET";
                        req_headers := [("Api-Key", apiKey)]; req_body := "" |} ;;
                   if negb (ok response) then
                     errorText <- lift (text response) ;;
                     ret upstream_failed
                   else
                     data <- lift (json response) ;;
                     ret (createResponse 200 data))
                  (fun _ => ret upstream_failed)
      end.

End WithRuntime.

End AdminTests.

(** ** Runs of the system *)

(** [validateToken] called once per clock reading of [times] (milliseconds),
    each call starting in the world the previous one left. *)
Fixpoint validate_at_times (tok : JSValue) (times : list Z) (w : World)
    : list (Outcome bool) * World :=
  match times with
  | [] => ([], w)
  | ms :: rest =>
      let r := Tokens.validateToken tok (set_Date_now ms w) in
      let '(results, w') := validate_at_times tok rest (world_of r) in
      (result_of r :: results, w')
  end.

(** The records a run handed to DynamoDB for writing. *)
Definition puts_of (calls : list Event) : list TokenRecord :=
  omap (fun e => match e with DynamoPut item => Some item | _ => None end) calls.

(** The record [storeToken] writes for [tok] when the clock reads [ms]. *)
Definition issued_record (tok : string) (ms : Z) : TokenRecord :=
  {| token := tok;
     ttl := Some (ms / 1000 + Tokens.TOKEN_TTL_SECONDS)%Z;
     createdAt := Some (ms / 1000)%Z |}.

(** The token the next call of [generateToken] yields. *)
Definition next_token (w : World) : string :=
  Tokens.remove_hyphens (uuid_source w (uuid_drawn w)).

(** A computation is quiet when it returns, touches nothing but the
    secrets cache, and calls neither the store nor the provider. *)
Definition quiet {A} (m : M A) (P : A -> Prop) : Prop :=
  forall w, exists (a : A) (cache : gmap string string) (calls : list Event),
    m w = (Returns a, set_secretsCache cache w, calls)
    /\ P a
    /\ filter is_provider_call calls = []
    /\ filter is_store_call calls = [].

Section Runs.
Context `{JSON}.

(** The token and test id of a request that passes the method, origin and
    body checks of the exchange handler. *)
Definition accepted (event : APIGatewayProxyEvent) : option (string * string) :=
  if String.eqb (httpMethod event) "POST"
     && negb (origin_differs (origin_of event) GetAccessCode.ALLOWED_ORIGIN) then
    match GetAccessCode.parse_body event with
    | Some requestBody =>
        if GetAccessCode.validateRequestBody requestBody then
          match get_prop_opt requestBody "token", get_prop_opt requestBody "testId" with
          | JStr tok, JStr testId => Some (tok, testId)
          | _, _ => None
          end
        else None
    | None => None
    end
  else None.

(** The answer of the exchange handler to what [requestAccessCode] returned. *)
Definition respond (result : TestPortal.AccessCodeResult) : APIGatewayProxyResult :=
  if negb (TestPortal.success result) then
    GetAccessCode.createResponse 502
      (JObj [("message", JStr "Failed to retrieve access code from TestPortal");
             ("error", optional_string (TestPortal.error result))])
  else
    GetAccessCode.createResponse 200
      (JObj (("accessCode", optional_string (TestPortal.accessCode result))
             :: match TestPortal.isDevelopmentMode result with
                | Some true => [("_dev", JBool true)]
                | _ => []
                end)).

Definition unauthorized : APIGatewayProxyResult :=
  GetAccessCode.createResponse 401 (JObj [("message", JStr "Invalid or expired token")]).

(** The exchange handler from its token check on. *)
Definition exchange (tok testId : string) : M APIGatewayProxyResult :=
  isValidToken <- Tokens.validateToken (JStr tok) ;;
  if negb isValidToken then ret unauthorized
  else
    result <- TestPortal.requestAccessCode testId ;;
    ret (respond result).

(** The request body the spec asks for: an object whose [token] and
    [testId] are both non-empty strings. *)
Definition well_formed_body (event : APIGatewayProxyEvent) : Prop :=
  exists fs tok testId,
    GetAccessCode.parse_body event = Some (JObj fs)
    /\ field "token" fs = Some (JStr tok) /\ tok <> ""
    /\ field "testId" fs = Some (JStr testId) /\ testId <> "".

(** The access code the exchanger recognises in a provider reply: the
    first entry of [accessCodes], read under the names [accessCode],
    [access_code], [code], in this order. *)
Definition recognized_code (data : JSValue) : JSValue :=
  let accessCodeEntry := get_first_opt (get_prop_opt data "accessCodes") in
  js_or (js_or (get_prop_opt accessCodeEntry "accessCode")
               (get_prop_opt accessCodeEntry "access_code"))
        (get_prop_opt accessCodeEntry "code").

(** What [requestAccessCode] makes of the provider's reply to its one
    request. *)
Definition interpret_reply (reply : Outcome Response) : TestPortal.AccessCodeResult :=
  let failure (detail : string) :=
    {| TestPortal.success := false; TestPortal.accessCode := None;
       TestPortal.error := Some detail; TestPortal.isDevelopmentMode := None |} in
  let message_of (e : Exn) :=
    match e with
    | JsError _ message => message
    | JsNonError => "Unknown error occurred"
    end in
  match reply with
  | Throws e => failure (message_of e)
  | Returns response =>
      if ok response then
        match json response with
        | Throws e => failure (message_of e)
        | Returns data =>
            match get_prop data "accessCodes" with
            | Throws e => failure (message_of e)
            | Returns _ =>
                match recognized_code data with
                | JStr code =>
                    if String.eqb code "" then
                      failure "TestPortal API response did not contain an access code"
                    else
                      {| TestPortal.success := true; TestPortal.accessCode := Some code;
                         TestPortal.error := None; TestPortal.isDevelopmentMode := None |}
                | other =>
                    if truthy other then failure (message_of TypeError_not_a_function)
                    else failure "TestPortal API response did not contain an access code"
                end
            end
        end
      else
        match text response with
        | Throws e => failure (message_of e)
        | Returns _ =>
            failure ("TestPortal API returned " ++ pretty (status response) ++ ": "
                       ++ statusText response)
        end
  end.

(** The request [requestAccessCode] sends for [testId] with the credential
    [apiKey]. *)
Definition provider_request (w : World) (testId : string) (apiKey : JSValue) : FetchRequest :=
  {| url := TestPortal.TESTPORTAL_API_URL (env w) ++ "/manager/me/tests/" ++ testId
              ++ "/current-date/access-codes/add";
     method := "POST";
     req_headers := [("Content-Type", JStr "application/json"); ("Api-Key", apiKey)];
     req_body := JSON_stringify
       (JObj [("count", JNum 1); ("sendInvitationOnTestActivation", JBool false)]) |}.

(** Worlds the deployed system can be in, with the records it has written
    so far: it starts with an empty table; a token request and an exchange
    request run their handler; anything else (time passing, DynamoDB
    evicting records, secrets rotating, outages) may change the world
    freely but adds no record to the table. *)
Inductive reachable : list TokenRecord -> World -> Prop :=
| reach_init w :
    table w = ∅ -> reachable [] w
| reach_issue written w event :
    reachable written w ->
    reachable (written ++ puts_of (calls_of (RequestToken.handler event w)))
              (world_of (RequestToken.handler event w))
| reach_exchange written w event :
    reachable written w ->
    reachable written (world_of (GetAccessCode.handler event w))
| reach_external written w w' :
    reachable written w ->
    (forall k r, table w' !! k = Some r -> table w !! k = Some r) ->
    reachable written w'.

End Runs.

(** ** Sample data for closed examples *)

Definition quote : string := String (ascii_of_nat 34) "".

(** A small printer for JSON documents, without string escaping. *)
Fixpoint print (v : JSValue) : string :=
  match v with
  | JUndefined | JNull => "null"
  | JBool true => "true"
  | JBool false => "false"
  | JNum n => pretty n
  | JStr s => quote ++ s ++ quote
  | JArr items =>
      "[" ++ (fix go (l : list JSValue) : string :=
                match l with
                | [] => ""
                | [x] => print x
                | x :: rest => print x ++ "," ++ go rest
                end) items ++ "]"
  | JObj fields =>
      "{" ++ (fix go (l : list (string * JSValue)) : string :=
                match l with
                | [] => ""
                | [(k, x)] => quote ++ k ++ quote ++ ":" ++ print x
                | (k, x) :: rest => quote ++ k ++ quote ++ ":" ++ print x ++ "," ++ go rest
                end) fields ++ "}"
  end.

Definition sample_token : string := "123e4567e89b42d3a456426614174000".

Definition sample_body : JSValue :=
  JObj [("token", JStr sample_token); ("testId", JStr "bogus-test")].

Definition sample_body_with_email : JSValue :=
  JObj [("token", JStr sample_token); ("testId", JStr "bogus-test");
        ("email", JStr "student@example.com")].

Definition sample_body_no_testId : JSValue :=
  JObj [("token", JStr sample_token)].

(** A [JSON] that reads back the sample documents. *)
Definition sample_json : JSON :=
  {| JSON_parse := fun s =>
       List.find (fun v => String.eqb (print v) s)
         [sample_body; sample_body_with_email; sample_body_no_testId;
          JObj [("apiKey", JStr "live-key")]];
     JSON_stringify := print |}.

Definition sample_event (b : JSValue) : APIGatewayProxyEvent :=
  {| httpMethod := "POST";
     headers := Some {[ "origin" := "https://my.icecampus.com" ]};
     body := Some (print b) |}.

(** A container at start: empty table, no secret behind the configured
    name, a provider that answers 500. *)
Definition sample_world : World :=
  {| Date_now := 1700000000123;
     uuid_source := fun _ => "123e4567-e89b-42d3-a456-426614174000";
     uuid_drawn := 0;
     env := {[ "TESTPORTAL_SECRET_NAME" := "ice-testportal/testportal-api-key/dev" ]};
     table := ∅;
     dynamo_fault := None;
     secretsManager := fun _ =>
       Throws (JsError "ResourceNotFoundException" "Secrets Manager can't find the specified secret.");
     secretsCache := ∅;
     provider := fun _ =>
       Returns {| status := 500; statusText := "Internal Server Error";
                  text := Returns "oops"; json := Throws (JsError "SyntaxError" "Unexpected token") |} |}.

(** The world a container is in after [delay] more milliseconds, once the
    secret behind every name has been rotated to [v]. *)
Definition rotated (v : string) (delay : Z) (w : World) : World :=
  set_secretsManager (fun _ => Returns (Some v)) (set_Date_now (Date_now w + delay) w).

(** The sample world after one token request. *)
Definition sample_world_issued : World :=
  world_of (@RequestToken.handler sample_json (sample_event JNull) sample_world).

(** The issued sample world once the secret holds a live key. *)
Definition sample_world_live : World :=
  set_secretsManager (fun _ => Returns (Some "live-key")) sample_world_issued.

Definition set_uuid_source (source : nat -> string) (w : World) : World :=
  {| Date_now := Date_now w; uuid_source := source;
     uuid_drawn := uuid_drawn w; env := env w; table := table w;
     dynamo_fault := dynamo_fault w; secretsManager := secretsManager w;
     secretsCache := secretsCache w; provider := provider w |}.

(** The issued sample world, about to draw another UUID. *)
Definition sample_world_second : World :=
  set_uuid_source (fun _ => "0b1e2d3c-4f5a-4b6c-8d7e-9f0a1b2c3d4e") sample_world_issued.

(** The value [getTestPortalApiKey] and [getAdminPassword] take out of a
    non-empty secret string: the field [first] of the parsed JSON, else
    the field [second], else the string itself. *)
Definition resolve_secret `{JSON} (first second secretValue : string) : JSValue :=
  match JSON_parse secretValue with
  | None => JStr secretValue
  | Some parsed =>
      match get_prop parsed first with
      | Throws _ => JStr secretValue
      | Returns a =>
          if truthy a then a
          else
            match get_prop parsed second with
            | Throws _ => JStr secretValue
            | Returns b => js_or b (JStr secretValue)
            end
      end
  end.

(** A sample [URL] runtime that keeps a URL as its text and appends search
    parameters without encoding them. *)
Definition sample_url : URLAPI :=
  {| URL := string;
     URL_new := fun s => if String.prefix "https://" s then Some s else None;
     searchParams_set := fun u k v => u ++ "&" ++ k ++ "=" ++ v;
     URL_toString := fun u => u |}.

(** The live sample world with an admin password configured in the
    environment and already looked up once. *)
Definition sample_world_admin : World :=
  {| Date_now := Date_now sample_world_live;
     uuid_source := uuid_source sample_world_live;
     uuid_drawn := uuid_drawn sample_world_live;
     env := <[ "ADMIN_PASSWORD_SECRET_NAME" := "ice-testportal/admin-password/dev" ]>
              (env sample_world_live);
     table := table sample_world_live;
     dynamo_fault := dynamo_fault sample_world_live;
     secretsManager := secretsManager sample_world_live;
     secretsCache := {[ "ice-testportal/admin-password/dev" := "s3cret" ]};
     provider := fun _ =>
       Returns {| status := 200; statusText := "OK"; text := Returns "";
                  json := Returns (JObj [("tests", JArr [])]) |} |}.

Definition sample_login_event (password : JSValue) : APIGatewayProxyEvent :=
  {| httpMethod := "POST";
     headers := Some {[ "origin" := "https://testportalurl.icecampus.com" ]};
     body := Some (print (JObj [("password", password)])) |}.

Definition sample_admin_json : JSON :=
  {| JSON_parse := fun s =>
       List.find (fun v => String.eqb (print v) s)
         [JObj [("password", JStr "s3cret")]; JObj [("password", JStr "guess")];
          JObj [("password", JNum 5)]];
     JSON_stringify := print |}.

Definition sample_tests_event (authorization : string) : APIGatewayProxyQuery :=
  {| request :=
       {| httpMethod := "GET";
          headers := Some {[ "origin" := "https://testportalurl.icecampus.com";
                             "Authorization" := authorization ]};
          body := None |};
     queryStringParameters := Some {[ "name" := "algebra" ]} |}.

Definition set_provider (api : FetchRequest -> Outcome Response) (w : World) : World :=
  {| Date_now := Date_now w; uuid_source := uuid_source w;
     uuid_drawn := uuid_drawn w; env := env w; table := table w;
     dynamo_fault := dynamo_fault w; secretsManager := secretsManager w;
     secretsCache := secretsCache w; provider := api |}.

(** The live sample world with a provider that answers 200 with [data]. *)
Definition sample_world_answering (data : JSValue) : World :=
  set_provider
    (fun _ => Returns {| status := 200; statusText := "OK"; text := Returns "";
                         json := Returns data |})
    sample_world_live.

(** What the admin tests handler answers to the provider's reply. *)
Definition proxy_reply `{JSON} (reply : Outcome Response) : APIGatewayProxyResult :=
  match reply with
  | Throws _ => AdminTests.upstream_failed
  | Returns response =>
      if ok response then
        match json response with
        | Returns data => AdminTests.createResponse 200 data
        | Throws _ => AdminTests.upstream_failed
        end
      else AdminTests.upstream_failed
  end.

(** The request the admin tests handler sends for the URL [u]. *)
Definition tests_request `{URLAPI} (u : URL) (apiKey : JSValue) : FetchRequest :=
  {| url := URL_toString u; method := "GET";
     req_headers := [("Api-Key", apiKey)]; req_body := "" |}.

(** [error instanceof Error ? error.message : 'Unknown error occurred'] *)
Definition error_message (e : Exn) : string :=
  match e with
  | JsError _ message => message
  | JsNonError => "Unknown error occurred"
  end.

(** The outcome [r] is a response with the status [status], the headers
    [cors] and, as its body, the serialisation of [body]. *)
Definition answers `{JSON} (r : Outcome APIGatewayProxyResult) (status : Z)
    (cors : list (string * string)) (body : JSValue) : Prop :=
  exists resp : APIGatewayProxyResult,
    r = Returns resp
    /\ statusCode resp = status
    /\ resultHeaders resp = cors
    /\ resultBody resp = JSON_stringify body.

(** * Properties *)

Ltac run :=
  unfold result_of, world_of, calls_of, bind, try_catch, lift, ret, throw in *;
  simpl in *.

Ltac split_cases :=
  repeat (case_match; simpl in *; simplify_eq); try done.

(** ** Token validation *)

Lemma validateToken_unfold (t : string) (w : World) :
  Tokens.validateToken (JStr t) w =
    if String.eqb t "" then (Returns false, w, [])
    else match dynamo_fault w with
         | Some _ => (Returns false, w, [DynamoGet t])
         | None =>
             match table w !! t with
             | None => (Returns false, w, [DynamoGet t])
             | Some record =>
                 (Returns
                    (negb (js_lt (ttl record) (Date_now w / 1000))
                     && match result_of (Date_toISOString (createdAt record) w),
                              result_of (Date_toISOString (ttl record) w) with
                        | Returns _, Returns _ => true
                        | _, _ => false
                        end),
                  w, [DynamoGet t])
             end
         end.
Proof.
  unfold Tokens.validateToken, Tokens.dynamo_get, Tokens.nowSeconds, Date_toISOString.
  run. destruct (String.eqb t ""); [done|]. simpl.
  destruct (dynamo_fault w); [done|].
  destruct (table w !! t) as [[k l c]|]; [|done]. simpl.
  destruct l as [l|], c as [c|]; simpl; split_cases.
Qed.

Lemma validateToken_not_string (tok : JSValue) (w : World) :
  (forall t, tok <> JStr t) ->
  Tokens.validateToken tok w = (Returns false, w, []).
Proof.
  intros Hns. unfold Tokens.validateToken.
  destruct tok as [| |b|n|s|l|fs]; simpl; try reflexivity.
  - by destruct b.
  - by destruct (n =? 0)%Z.
  - by destruct (Hns s).
Qed.

Ltac validate_cases tok :=
  destruct tok;
  [ rewrite validateToken_not_string by done
  | rewrite validateToken_not_string by done
  | rewrite validateToken_not_string by done
  | rewrite validateToken_not_string by done
  | rewrite validateToken_unfold
  | rewrite validateToken_not_string by done
  | rewrite validateToken_not_string by done ].

Lemma validateToken_world (tok : JSValue) (w : World) :
  world_of (Tokens.validateToken tok w) = w.
Proof. validate_cases tok; split_cases. Qed.

Lemma validateToken_returns (tok : JSValue) (w : World) :
  exists b, result_of (Tokens.validateToken tok w) = Returns b.
Proof. validate_cases tok; split_cases; eauto. Qed.

Lemma validateToken_calls (tok : JSValue) (w : World) :
  calls_of (Tokens.validateToken tok w) =
    match tok with
    | JStr t => if String.eqb t "" then [] else [DynamoGet t]
    | _ => []
    end.
Proof. validate_cases tok; split_cases. Qed.

Lemma validateToken_run (tok : JSValue) (w : World) :
  exists (b : bool) (calls : list Event),
    Tokens.validateToken tok w = (Returns b, w, calls).
Proof.
  destruct (Tokens.validateToken tok w) as [[res w'] calls] eqn:Hrun.
  pose proof (validateToken_world tok w) as Hw.
  destruct (validateToken_returns tok w) as [b Hb].
  rewrite Hrun in Hw, Hb. unfold world_of, result_of in *. simpl in *. subst.
  by exists b, calls.
Qed.

(** C3: [validateToken] is total.  Whatever it is given and whatever state
    the store is in, it returns a boolean and throws nothing; an empty
    string or a value that is not a string is rejected without any call to
    the store; a failing lookup and a record whose timestamps are unusable
    both come back as [false]. *)
Theorem validateToken_total (tok : JSValue) (w : World) :
  exists (b : bool) (calls : list Event),
    Tokens.validateToken tok w = (Returns b, w, calls)
    /\ ((tok = JStr "" \/ forall t, tok <> JStr t) -> b = false /\ calls = [])
    /\ (forall t e, tok = JStr t -> dynamo_fault w = Some e -> b = false)
    /\ (forall t r, tok = JStr t -> table w !! t = Some r ->
          ttl r = None \/ createdAt r = None -> b = false).
Proof.
  destruct (validateToken_run tok w) as (b & calls & Hrun).
  exists b, calls. split; [exact Hrun|].
  split; [|split].
  - intros [-> | Hns].
    + rewrite validateToken_unfold in Hrun. simpl in Hrun. by simplify_eq.
    + rewrite validateToken_not_string in Hrun by done. by simplify_eq.
  - intros t e -> Hfault. rewrite validateToken_unfold, Hfault in Hrun.
    destruct (String.eqb t ""); by simplify_eq.
  - intros t r -> Hr Hbad. rewrite validateToken_unfold, Hr in Hrun.
    destruct (String.eqb t ""); [by simplify_eq|].
    destruct (dynamo_fault w); [by simplify_eq|].
    simplify_eq. destruct Hbad as [-> | ->]; simpl.
    + by destruct (result_of (Date_toISOString (createdAt r) w)).
    + apply andb_false_r.
Qed.

Lemma validateToken_total_witness :
  exists (b : bool) (calls : list Event),
    Tokens.validateToken (JNum 7) sample_world = (Returns b, sample_world, calls)
    /\ b = false /\ calls = [].
Proof.
  destruct (validateToken_total (JNum 7) sample_world)
    as (b & calls & Hrun & Hreject & _).
  exists b, calls. split; [exact Hrun|].
  apply Hreject. right. intros t. discriminate.
Defined.

Lemma validate_at_times_spec (tok : JSValue) (times : list Z) (w : World) :
  validate_at_times tok times w =
    (map (fun ms => result_of (Tokens.validateToken tok (set_Date_now ms w))) times,
     match last times with
     | Some ms => set_Date_now ms w
     | None => w
     end).
Proof.
  revert w. induction times as [|ms rest IH]; intros w; [reflexivity|].
  simpl. rewrite validateToken_world, IH. f_equal.
  destruct rest as [|ms' rest']; [reflexivity|].
  change (last (ms :: ms' :: rest')) with (last (ms' :: rest')).
  destruct (last (ms' :: rest')) eqn:Hlast; [reflexivity|].
  by apply last_None in Hlast.
Qed.

(** C4: validation is repeatable and has no side effect.  A token that is
    valid at each of the instants [times] validates to [true] at every one
    of the calls made in a row at these instants, the table is the same
    afterwards, and no call to [validateToken], on any input, changes the
    world or hands anything to the store for writing. *)
Theorem validation_repeatable (tok : JSValue) (times : list Z) (w : World) :
  (forall ms, In ms times ->
     result_of (Tokens.validateToken tok (set_Date_now ms w)) = Returns true) ->
  fst (validate_at_times tok times w) = map (fun _ => Returns true) times
  /\ table (snd (validate_at_times tok times w)) = table w
  /\ (forall v w0, world_of (Tokens.validateToken v w0) = w0
                   /\ puts_of (calls_of (Tokens.validateToken v w0)) = []).
Proof.
  intros Hvalid. rewrite validate_at_times_spec. simpl.
  split; [|split].
  - apply map_ext_in. exact Hvalid.
  - by destruct (last times).
  - intros v w0. split; [apply validateToken_world|].
    rewrite validateToken_calls. destruct v; try reflexivity.
    by destruct (String.eqb s "").
Qed.

Lemma validation_repeatable_witness :
  fst (validate_at_times (JStr sample_token)
         [1700000001000; 1700000450000; 1700000899999]%Z sample_world_issued)
  = [Returns true; Returns true; Returns true].
Proof.
  apply (validation_repeatable (JStr sample_token)
           [1700000001000; 1700000450000; 1700000899999]%Z sample_world_issued).
  intros ms [<- | [<- | [<- | []]]]; vm_compute; reflexivity.
Defined.

(** ** Credential lookup *)

Lemma getSecret_unfold (secretName : string) (w : World) :
  Secrets.getSecret secretName w =
    match secretsCache w !! secretName with
    | Some v => (Returns (Some v), w, [])
    | None =>
        match secretsManager w secretName with
        | Returns (Some v) =>
            if String.eqb v "" then (Returns None, w, [SecretsManagerGet secretName])
            else (Returns (Some v),
                  set_secretsCache (<[secretName := v]> (secretsCache w)) w,
                  [SecretsManagerGet secretName])
        | _ => (Returns None, w, [SecretsManagerGet secretName])
        end
    end.
Proof.
  unfold Secrets.getSecret, Secrets.cache_get, Secrets.secrets_send, Secrets.cache_set.
  run. split_cases.
Qed.

(** C9, as stated, fails: a container that has looked the credential up
    once keeps answering with the old value after a rotation, however long
    it waits. *)
Lemma rotation_needs_restart :
  ~ exists bound : Z, forall delay : Z, (bound <= delay)%Z ->
      result_of
        (Secrets.getSecret "testportal-api-key"
           (rotated "new-key" delay
              (world_of (Secrets.getSecret "testportal-api-key"
                           (rotated "old-key" 0 sample_world)))))
      = Returns (Some "new-key").
Proof.
  intros [bound Hpicked]. specialize (Hpicked bound (Z.le_refl _)).
  rewrite !getSecret_unfold in Hpicked. vm_compute in Hpicked. discriminate.
Qed.

(** C9, amended: [getSecret] memoizes for the lifetime of the container.
    Once a lookup has returned a value, every later lookup of that name in
    the same container returns this value without calling Secrets Manager,
    whatever the secret has become meanwhile and whatever the clock says.
    Only a lookup that found nothing is not remembered: it leaves the
    cache as it was, having asked Secrets Manager. *)
Theorem getSecret_memoizes (secretName : string) (w : World) :
  (forall v, result_of (Secrets.getSecret secretName w) = Returns (Some v) ->
     forall (backing : string -> Outcome (option string)) (ms : Z),
       let w' := set_secretsManager backing
                   (set_Date_now ms (world_of (Secrets.getSecret secretName w))) in
       Secrets.getSecret secretName w' = (Returns (Some v), w', []))
  /\ (result_of (Secrets.getSecret secretName w) = Returns None ->
        world_of (Secrets.getSecret secretName w) = w
        /\ calls_of (Secrets.getSecret secretName w) = [SecretsManagerGet secretName]).
Proof.
  split.
  - intros v Hv backing ms w'. subst w'.
    rewrite getSecret_unfold in Hv |- *. rewrite (getSecret_unfold secretName w).
    destruct (secretsCache w !! secretName) as [c|] eqn:Hc; run.
    + rewrite Hc. by simplify_eq.
    + destruct (secretsManager w secretName) as [[s|]|]; run; try done.
      destruct (String.eqb s ""); run; [done|]. simplify_eq.
      by rewrite lookup_insert_eq.
  - intros Hnone. rewrite getSecret_unfold in Hnone |- *.
    destruct (secretsCache w !! secretName); run; [done|].
    destruct (secretsManager w secretName) as [[s|]|]; run; try done.
    by destruct (String.eqb s "").
Qed.

Lemma getSecret_memoizes_witness :
  Secrets.getSecret "testportal-api-key"
    (rotated "new-key" 86400000
       (world_of (Secrets.getSecret "testportal-api-key" (rotated "old-key" 0 sample_world))))
  = (Returns (Some "old-key"),
     rotated "new-key" 86400000
       (world_of (Secrets.getSecret "testportal-api-key" (rotated "old-key" 0 sample_world))),
     []).
Proof.
  apply (proj1 (getSecret_memoizes "testportal-api-key" (rotated "old-key" 0 sample_world))
           "old-key").
  vm_compute. reflexivity.
Defined.

(** ** Monad laws used below *)

Lemma bind_run {A B} (m : M A) (k : A -> M B) (w w1 : World) (a : A) (t1 : list Event) :
  m w = (Returns a, w1, t1) ->
  bind m k w = (result_of (k a w1), world_of (k a w1), (t1 ++ calls_of (k a w1))%list).
Proof.
  intros Hm. unfold bind. rewrite Hm.
  by destruct (k a w1) as [[r w2] t2].
Qed.

Lemma bind_ext {A B} (m : M A) (k1 k2 : A -> M B) (w : World) :
  (forall a w1, k1 a w1 = k2 a w1) -> bind m k1 w = bind m k2 w.
Proof.
  intros Hk. unfold bind. destruct (m w) as [[[a|e] w1] t1]; [|done].
  by rewrite Hk.
Qed.

Lemma set_secretsCache_same (w : World) : set_secretsCache (secretsCache w) w = w.
Proof. by destruct w. Qed.

Lemma quiet_ret {A} (a : A) (P : A -> Prop) : P a -> quiet (ret a) P.
Proof.
  intros Ha w. exists a, (secretsCache w), [].
  by rewrite set_secretsCache_same.
Qed.

Lemma quiet_bind {A B} (m : M A) (k : A -> M B) (P : A -> Prop) (Q : B -> Prop) :
  quiet m P -> (forall a, P a -> quiet (k a) Q) -> quiet (bind m k) Q.
Proof.
  intros Hm Hk w.
  destruct (Hm w) as (a & c1 & t1 & Hrun & Ha & Hp1 & Hs1).
  destruct (Hk a Ha (set_secretsCache c1 w)) as (b & c2 & t2 & Hrun2 & Hb & Hp2 & Hs2).
  exists b, c2, (t1 ++ t2)%list.
  rewrite (bind_run _ _ _ _ _ _ Hrun), Hrun2. run.
  rewrite !filter_app, Hp1, Hs1, Hp2, Hs2. done.
Qed.

Lemma quiet_getenv (name : string) : quiet (Secrets.getenv name) (fun _ => True).
Proof.
  intros w. exists (env w !! name), (secretsCache w), [].
  by rewrite set_secretsCache_same.
Qed.

Lemma quiet_getSecret (secretName : string) :
  quiet (Secrets.getSecret secretName) (fun _ => True).
Proof.
  intros w. rewrite getSecret_unfold.
  destruct (secretsCache w !! secretName) as [v|].
  { exists (Some v), (secretsCache w), []. by rewrite set_secretsCache_same. }
  destruct (secretsManager w secretName) as [[s|]|].
  - destruct (String.eqb s "").
    + exists None, (secretsCache w), [SecretsManagerGet secretName].
      by rewrite set_secretsCache_same.
    + by exists (Some s), (<[secretName:=s]> (secretsCache w)), [SecretsManagerGet secretName].
  - exists None, (secretsCache w), [SecretsManagerGet secretName].
    by rewrite set_secretsCache_same.
  - exists None, (secretsCache w), [SecretsManagerGet secretName].
    by rewrite set_secretsCache_same.
Qed.

Section Exchange.
Context `{JSON}.

Lemma quiet_api_key_of_secret (secretValue : string) :
  String.eqb secretValue "" = false ->
  quiet
    (try_catch
       (parsed <- Secrets.parse secretValue ;;
        apiKey <- lift (get_prop parsed "apiKey") ;;
        if truthy apiKey then ret apiKey
        else
          api_key <- lift (get_prop parsed "api_key") ;;
          ret (js_or api_key (JStr secretValue)))
       (fun _ => ret (JStr secretValue)))
    (fun apiKey => apiKey = JNull \/ truthy apiKey = true).
Proof.
  intros Hne w.
  assert (Htruthy : truthy (JStr secretValue) = true) by (simpl; by rewrite Hne).
  assert (Hfallback : exists (a : JSValue) (cache : gmap string string) (calls : list Event),
    (Returns (JStr secretValue), w, @nil Event) = (Returns a, set_secretsCache cache w, calls)
    /\ (a = JNull \/ truthy a = true)
    /\ filter is_provider_call calls = [] /\ filter is_store_call calls = []).
  { exists (JStr secretValue), (secretsCache w), []. rewrite set_secretsCache_same. auto. }
  unfold Secrets.parse. destruct (JSON_parse secretValue) as [parsed|]; run; [|done].
  destruct (get_prop parsed "apiKey") as [a|]; run; [|done].
  destruct (truthy a) eqn:Hta; run.
  { exists a, (secretsCache w), []. rewrite set_secretsCache_same. auto. }
  destruct (get_prop parsed "api_key") as [b|]; run; [|done].
  exists (js_or b (JStr secretValue)), (secretsCache w), [].
  rewrite set_secretsCache_same. repeat split; try done.
  right. unfold js_or. by destruct (truthy b) eqn:Hb.
Qed.

Lemma quiet_getTestPortalApiKey :
  quiet Secrets.getTestPortalApiKey (fun apiKey => apiKey = JNull \/ truthy apiKey = true).
Proof.
  unfold Secrets.getTestPortalApiKey.
  eapply quiet_bind; [apply quiet_getenv|]. intros [secretName|] _; [|apply quiet_ret; auto].
  destruct (String.eqb secretName ""); [apply quiet_ret; auto|].
  eapply quiet_bind; [apply quiet_getSecret|]. intros [secretValue|] _; [|apply quiet_ret; auto].
  destruct (String.eqb secretValue "") eqn:Hne; [apply quiet_ret; auto|].
  by apply quiet_api_key_of_secret.
Qed.

Lemma get_prop_returns (v x : JSValue) (k : string) :
  get_prop v k = Returns x -> get_prop_opt v k = x.
Proof. destruct v; simpl; congruence. Qed.

Lemma provider_request_cache (cache : gmap string string) (w : World)
    (testId : string) (apiKey : JSValue) :
  provider_request (set_secretsCache cache w) testId apiKey = provider_request w testId apiKey.
Proof. reflexivity. Qed.

Lemma requestAccessCode_unfold (testId : string) (w w1 : World) (apiKey : JSValue)
    (calls : list Event) :
  Secrets.getTestPortalApiKey w = (Returns apiKey, w1, calls) ->
  TestPortal.requestAccessCode testId w =
    if truthy apiKey then
      (Returns (interpret_reply (provider w1 (provider_request w1 testId apiKey))), w1,
       (calls ++ [ProviderFetch (provider_request w1 testId apiKey)])%list)
    else
      (Returns {| TestPortal.success := true;
                  TestPortal.accessCode := Some TestPortal.MOCK_ACCESS_CODE;
                  TestPortal.error := None;
                  TestPortal.isDevelopmentMode := Some true |}, w1, calls).
Proof.
  intros Hkey. unfold TestPortal.requestAccessCode.
  rewrite (bind_run _ _ _ _ _ _ Hkey).
  destruct (truthy apiKey) eqn:Hk; simpl; [|by rewrite app_nil_r].
  unfold provider_request, interpret_reply, recognized_code,
    Secrets.process_env, TestPortal.fetch, TestPortal.substring.
  run.
  destruct (provider w1 _) as [response|e]; run; [|done].
  destruct (ok response); run.
  - destruct (json response) as [data|e]; run; [|done].
    destruct (get_prop data "accessCodes") as [codes|e] eqn:Hcodes; run; [|done].
    rewrite (get_prop_returns _ _ _ Hcodes).
    destruct (js_or _ _) as [| |b|n|s|l|fs] eqn:Hcode; run; try done.
    + by destruct b.
    + by destruct (n =? 0)%Z.
    + by destruct (String.eqb s "").
  - by destruct (text response).
Qed.

Lemma handler_accepted (event : APIGatewayProxyEvent) (tok testId : string) (w : World) :
  accepted event = Some (tok, testId) ->
  GetAccessCode.handler event w = exchange tok testId w.
Proof.
  unfold accepted, GetAccessCode.handler, exchange.
  destruct (String.eqb (httpMethod event) "POST") eqn:Hpost; [|done].
  apply String.eqb_eq in Hpost. rewrite Hpost. simpl.
  destruct (origin_differs _ _); [done|]. simpl.
  destruct (GetAccessCode.parse_body event) as [requestBody|]; [|done].
  destruct (GetAccessCode.validateRequestBody requestBody); [|done]. simpl.
  destruct (get_prop_opt requestBody "token"); try done.
  destruct (get_prop_opt requestBody "testId"); try done.
  intros [= -> ->].
  apply bind_ext. intros [|] w1; [|reflexivity]. simpl.
  apply bind_ext. intros result w2. unfold respond.
  by destruct (TestPortal.success result).
Qed.

Lemma handler_rejected (event : APIGatewayProxyEvent) (w : World) :
  accepted event = None ->
  exists resp,
    GetAccessCode.handler event w = (Returns resp, w, [])
    /\ (httpMethod event = "POST" ->
        origin_differs (origin_of event) GetAccessCode.ALLOWED_ORIGIN = false ->
        statusCode resp = 400%Z).
Proof.
  unfold accepted, GetAccessCode.handler.
  destruct (String.eqb (httpMethod event) "OPTIONS") eqn:Hopt.
  { intros _. eexists. split; [reflexivity|].
    intros Hpost. rewrite Hpost in Hopt. discriminate. }
  destruct (String.eqb (httpMethod event) "POST") eqn:Hpost; simpl.
  2: { intros _. eexists. split; [reflexivity|].
       intros Hp. rewrite Hp in Hpost. discriminate. }
  destruct (origin_differs _ _); simpl.
  { intros _. eexists. split; [reflexivity|]. done. }
  destruct (GetAccessCode.parse_body event) as [requestBody|];
    [|intros _; eexists; split; reflexivity].
  destruct (GetAccessCode.validateRequestBody requestBody); simpl;
    [|intros _; eexists; split; reflexivity].
  destruct (get_prop_opt requestBody "token"); try (intros _; eexists; split; reflexivity).
  destruct (get_prop_opt requestBody "testId"); try (intros _; eexists; split; reflexivity).
  discriminate.
Qed.

Lemma exchange_run (tok testId : string) (w w1 : World) (apiKey : JSValue)
    (calls : list Event) :
  Secrets.getTestPortalApiKey w = (Returns apiKey, w1, calls) ->
  exchange tok testId w =
    match result_of (Tokens.validateToken (JStr tok) w) with
    | Returns true =>
        if truthy apiKey then
          (Returns (respond (interpret_reply (provider w1 (provider_request w1 testId apiKey)))),
           w1,
           (calls_of (Tokens.validateToken (JStr tok) w)
              ++ calls ++ [ProviderFetch (provider_request w1 testId apiKey)])%list)
        else
          (Returns (respond {| TestPortal.success := true;
                               TestPortal.accessCode := Some TestPortal.MOCK_ACCESS_CODE;
                               TestPortal.error := None;
                               TestPortal.isDevelopmentMode := Some true |}),
           w1, (calls_of (Tokens.validateToken (JStr tok) w) ++ calls)%list)
    | _ => (Returns unauthorized, w, calls_of (Tokens.validateToken (JStr tok) w))
    end.
Proof.
  intros Hkey. unfold exchange.
  destruct (validateToken_run (JStr tok) w) as (b & vcalls & Hv).
  rewrite (bind_run _ _ _ _ _ _ Hv), Hv. run.
  destruct b; simpl; [|by rewrite app_nil_r].
  rewrite (requestAccessCode_unfold _ _ _ _ _ Hkey).
  destruct (truthy apiKey); simpl; by rewrite app_nil_r.
Qed.

Lemma accepted_well_formed (event : APIGatewayProxyEvent) (tok testId : string) :
  accepted event = Some (tok, testId) ->
  well_formed_body event /\ tok <> "" /\ testId <> "".
Proof.
  unfold accepted, well_formed_body.
  destruct (_ && _); [|done].
  destruct (GetAccessCode.parse_body event) as [requestBody|]; [|done].
  unfold GetAccessCode.validateRequestBody.
  destruct requestBody as [| |b|n|s|l|fs]; simpl; try done;
    try (by destruct b); try (by destruct (n =? 0)%Z);
    try (by destruct (negb (String.eqb s ""))).
  destruct (field "token" fs) as [[| | | |t| |]|] eqn:Ht; simpl; try done.
  destruct (field "testId" fs) as [[| | | |i| |]|] eqn:Hi; simpl;
    try (by rewrite andb_false_r).
  destruct t as [|c t']; simpl; [done|].
  destruct i as [|d i']; simpl; [done|].
  intros [= <- <-]. split; [|done].
  by exists fs, (String c t'), (String d i').
Qed.

Lemma exchange_calls_head (tok : string) (w : World) :
  result_of (Tokens.validateToken (JStr tok) w) = Returns true ->
  calls_of (Tokens.validateToken (JStr tok) w) = [DynamoGet tok].
Proof.
  rewrite validateToken_calls. destruct (String.eqb tok "") eqn:Hempty; [|done].
  apply String.eqb_eq in Hempty. subst. discriminate.
Qed.


(** C6: a malformed exchange body never reaches the store or the provider.
    When the body is not an object carrying a non-empty string [token] and
    a non-empty string [testId], the handler makes no outside call and
    leaves the world as it is; for a POST from the allowed origin its
    answer is the 400 response. *)
Theorem malformed_body_is_bad_request (event : APIGatewayProxyEvent) (w : World) :
  ~ well_formed_body event ->
  calls_of (GetAccessCode.handler event w) = []
  /\ world_of (GetAccessCode.handler event w) = w
  /\ (httpMethod event = "POST" ->
      origin_of event = Some GetAccessCode.ALLOWED_ORIGIN ->
      exists resp,
        result_of (GetAccessCode.handler event w) = Returns resp
        /\ statusCode resp = 400%Z).
Proof.
  intros Hbad.
  assert (Hacc : accepted event = None).
  { destruct (accepted event) as [[tok testId]|] eqn:Hacc; [|done].
    destruct Hbad. by apply accepted_well_formed in Hacc as [? _]. }
  destruct (handler_rejected event w Hacc) as (resp & Hrun & Hstatus).
  rewrite Hrun. repeat split.
  intros Hpost Horigin. exists resp. split; [reflexivity|].
  apply Hstatus; [done|]. by rewrite Horigin.
Qed.

(** C7: development mode.  For an accepted request whose token validates,
    when the credential lookup yields nothing the answer has status 200
    and, as its body, the serialisation of the fixed code ABC123MOCK
    together with the flag [_dev: true], whatever the test id, and the run
    contains no provider call. *)
Theorem dev_mode_returns_mock_code (event : APIGatewayProxyEvent) (w : World)
    (tok testId : string) :
  accepted event = Some (tok, testId) ->
  result_of (Tokens.validateToken (JStr tok) w) = Returns true ->
  result_of (Secrets.getTestPortalApiKey w) = Returns JNull ->
  (exists resp : APIGatewayProxyResult,
     result_of (GetAccessCode.handler event w) = Returns resp
     /\ statusCode resp = 200%Z
     /\ resultHeaders resp = GetAccessCode.corsHeaders
     /\ resultBody resp
        = JSON_stringify (JObj [("accessCode", JStr "ABC123MOCK"); ("_dev", JBool true)]))
  /\ filter is_provider_call (calls_of (GetAccessCode.handler event w)) = [].
Proof.
  intros Hacc Hvalid Hnokey.
  destruct (quiet_getTestPortalApiKey w) as (apiKey & cache & kcalls & Hkey & _ & Hquiet & _).
  rewrite Hkey in Hnokey. injection Hnokey as ->.
  rewrite (handler_accepted _ _ _ _ Hacc), (exchange_run _ _ _ _ _ _ Hkey), Hvalid.
  split.
  - eexists. split; [reflexivity|]. by repeat split.
  - unfold calls_of at 1. cbn [snd truthy].
    rewrite filter_app, Hquiet, (exchange_calls_head _ _ Hvalid). reflexivity.
Qed.


(** C10: nothing of the request but [token] and [testId] matters.  Two
    requests that pass the method, origin and body checks with the same
    token and test id get the same answer, leave the same world and make
    the same outside calls; every request sent to the provider is the one
    built from the test id, the configured base URL and the credential. *)
Theorem response_depends_on_token_and_testId (event1 event2 : APIGatewayProxyEvent)
    (w : World) (tok testId : string) :
  accepted event1 = Some (tok, testId) ->
  accepted event2 = Some (tok, testId) ->
  GetAccessCode.handler event1 w = GetAccessCode.handler event2 w
  /\ (forall req, In (ProviderFetch req) (calls_of (GetAccessCode.handler event1 w)) ->
        exists apiKey,
          result_of (Secrets.getTestPortalApiKey w) = Returns apiKey
          /\ req = provider_request w testId apiKey).
Proof.
  intros Hacc1 Hacc2.
  rewrite (handler_accepted _ _ _ _ Hacc1), (handler_accepted _ _ _ _ Hacc2).
  split; [reflexivity|].
  destruct (quiet_getTestPortalApiKey w) as (apiKey & cache & kcalls & Hkey & _ & Hquiet & _).
  intros req Hin. exists apiKey. rewrite Hkey. split; [reflexivity|].
  rewrite (exchange_run _ _ _ _ _ _ Hkey) in Hin.
  assert (Hnot : forall calls, filter is_provider_call calls = [] ->
                   ~ In (ProviderFetch req) calls).
  { intros calls Hnone Hreq.
    assert (Hf : ProviderFetch req ∈ filter is_provider_call calls).
    { apply list_elem_of_filter. split; [done|]. by apply list_elem_of_In. }
    rewrite Hnone in Hf. by apply not_elem_of_nil in Hf. }
  assert (Hvcalls : filter is_provider_call (calls_of (Tokens.validateToken (JStr tok) w)) = []).
  { rewrite validateToken_calls. by destruct (String.eqb tok ""). }
  destruct (result_of (Tokens.validateToken (JStr tok) w)) as [[|]|e];
    try (by apply Hnot in Hin).
  destruct (truthy apiKey).
  - unfold calls_of at 1 in Hin. simpl in Hin.
    rewrite !in_app_iff in Hin. destruct Hin as [Hin | [Hin | [Hin | []]]].
    + by apply Hnot in Hin.
    + by apply Hnot in Hin.
    + by injection Hin as <-.
  - unfold calls_of at 1 in Hin. simpl in Hin.
    apply Hnot in Hin; [done|]. by rewrite filter_app, Hvcalls, Hquiet.
Qed.

End Exchange.

(** ** Token issuance *)

Section Issuance.
Context `{JSON}.

Lemma issue_run (event : APIGatewayProxyEvent) (w : World) :
  let item := issued_record (next_token w) (Date_now w) in
  let drawn := set_uuid_drawn (S (uuid_drawn w)) w in
  let failure (detail : string) :=
    RequestToken.createResponse 500
      (JObj [("message", JStr "Internal server error"); ("error", JStr detail)]) in
  RequestToken.handler event w =
    if String.eqb (httpMethod event) "OPTIONS" then
      (Returns {| statusCode := 204; resultHeaders := RequestToken.corsHeaders;
                  resultBody := "" |}, w, [])
    else if negb (String.eqb (httpMethod event) "POST") then
      (Returns (RequestToken.createResponse 405 (JObj [("message", JStr "Method not allowed")])),
       w, [])
    else if origin_differs (origin_of event) RequestToken.ALLOWED_ORIGIN then
      (Returns (RequestToken.createResponse 403 (JObj [("message", JStr "Forbidden")])), w, [])
    else
      match dynamo_fault w with
      | Some e =>
          (Returns (failure match e with
                            | JsError _ message => message
                            | JsNonError => "Unknown error"
                            end),
           drawn, [DynamoPut item])
      | None =>
          (Returns
             (if (Z.abs ((Date_now w / 1000 + Tokens.TOKEN_TTL_SECONDS) * 1000)
                    <=? 8640000000000000)%Z
              then RequestToken.createResponse 200 (JObj [("token", JStr (next_token w))])
              else failure "Invalid time value"),
           set_table (<[next_token w := item]> (table w)) drawn,
           [DynamoPut item])
      end.
Proof.
  unfold RequestToken.handler, Tokens.generateToken, Tokens.randomUUID, Tokens.storeToken,
    Tokens.nowSeconds, Tokens.dynamo_put, Date_toISOString, issued_record, next_token.
  run. split_cases.
Qed.


End Issuance.

(** ** Reachable worlds and expiry *)

Section Expiry.
Context `{JSON}.

Lemma exchange_handler_table (event : APIGatewayProxyEvent) (w : World) :
  table (world_of (GetAccessCode.handler event w)) = table w.
Proof.
  destruct (accepted event) as [[tok testId]|] eqn:Hacc.
  - destruct (quiet_getTestPortalApiKey w) as (apiKey & cache & kcalls & Hkey & _).
    rewrite (handler_accepted _ _ _ _ Hacc), (exchange_run _ _ _ _ _ _ Hkey).
    destruct (result_of (Tokens.validateToken (JStr tok) w)) as [[|]|e]; try reflexivity.
    by destruct (truthy apiKey).
  - destruct (handler_rejected event w Hacc) as (resp & -> & _). reflexivity.
Qed.

Lemma issue_handler_table (event : APIGatewayProxyEvent) (w : World) (k : string)
    (r : TokenRecord) :
  table (world_of (RequestToken.handler event w)) !! k = Some r ->
  table w !! k = Some r
  \/ (In r (puts_of (calls_of (RequestToken.handler event w))) /\ token r = k).
Proof.
  rewrite issue_run. cbv zeta.
  destruct (String.eqb (httpMethod event) "OPTIONS"); [by left|].
  destruct (negb (String.eqb (httpMethod event) "POST")); [by left|].
  destruct (origin_differs _ _); [by left|].
  destruct (dynamo_fault w); [by left|].
  unfold world_of, calls_of. simpl.
  destruct (decide (next_token w = k)) as [<-|Hne].
  - rewrite lookup_insert_eq. intros [= <-]. right. split; [by left|reflexivity].
  - rewrite lookup_insert_ne by done. auto.
Qed.

Lemma issue_handler_puts (event : APIGatewayProxyEvent) (w : World) (r : TokenRecord) :
  In r (puts_of (calls_of (RequestToken.handler event w))) ->
  exists c, createdAt r = Some c /\ ttl r = Some (c + Tokens.TOKEN_TTL_SECONDS)%Z.
Proof.
  rewrite issue_run. cbv zeta.
  destruct (String.eqb (httpMethod event) "OPTIONS"); [done|].
  destruct (negb (String.eqb (httpMethod event) "POST")); [done|].
  destruct (origin_differs _ _); [done|].
  destruct (dynamo_fault w); (intros [<- | []]; by eexists).
Qed.

(** Every record in the table of a reachable world was written by the
    issuer under its own token, with [ttl = createdAt + 900]. *)
Lemma reachable_table (written : list TokenRecord) (w : World) :
  reachable written w ->
  (forall k r, table w !! k = Some r -> In r written /\ token r = k)
  /\ (forall r, In r written ->
        exists c, createdAt r = Some c /\ ttl r = Some (c + Tokens.TOKEN_TTL_SECONDS)%Z).
Proof.
  induction 1 as [w Hempty | written w event _ [IHt IHw] | written w event _ [IHt IHw]
                  | written w w' _ [IHt IHw] Hsub].
  - split; [|by intros r []]. intros k r. by rewrite Hempty, lookup_empty.
  - split.
    + intros k r Hk. apply issue_handler_table in Hk as [Hold | [Hnew Htok]].
      * destruct (IHt k r Hold). split; [|done]. apply in_or_app. by left.
      * split; [|done]. apply in_or_app. by right.
    + intros r Hin. apply in_app_or in Hin as [Hold | Hnew]; [by apply IHw|].
      by apply issue_handler_puts in Hnew.
  - split; [|done]. intros k r. rewrite exchange_handler_table. apply IHt.
  - split; [|done]. intros k r Hk. apply IHt. by apply Hsub.
Qed.

(** C2, amended: [validateToken] returns [false] strictly after the expiry
    second.  In any reachable world, a token is rejected when every record
    the issuer ever wrote for it has [createdAt + 900] strictly below the
    current time in seconds, whether or not the store still holds the
    record; in particular a string for which no record was ever written is
    rejected.  (At the expiry second itself the token still validates.) *)
Theorem validate_false_after_expiry (written : list TokenRecord) (w : World) (tok : string) :
  reachable written w ->
  (forall r, In r written -> token r = tok ->
     exists c, createdAt r = Some c
               /\ (c + Tokens.TOKEN_TTL_SECONDS < Date_now w / 1000)%Z) ->
  result_of (Tokens.validateToken (JStr tok) w) = Returns false.
Proof.
  intros Hreach Hold. apply reachable_table in Hreach as [Htable Hwritten].
  rewrite validateToken_unfold.
  destruct (String.eqb tok ""); [reflexivity|].
  destruct (dynamo_fault w); [reflexivity|].
  destruct (table w !! tok) as [r|] eqn:Hr; [|reflexivity].
  destruct (Htable _ _ Hr) as [Hin Htok].
  destruct (Hold r Hin Htok) as (c & Hc & Hlate).
  destruct (Hwritten r Hin) as (c' & Hc' & Httl).
  rewrite Hc in Hc'. injection Hc' as <-.
  unfold result_of at 1. simpl. rewrite Httl. simpl.
  apply Z.ltb_lt in Hlate. by rewrite Hlate.
Qed.

End Expiry.

(** ** Closed instances *)

Lemma sample_reachable (ms : Z) :
  @reachable sample_json [issued_record sample_token 1700000000123]
    (set_Date_now ms sample_world_issued).
Proof.
  apply (reach_external _ sample_world_issued); [|done].
  exact (@reach_issue sample_json [] sample_world (sample_event JNull)
           (@reach_init sample_json sample_world eq_refl)).
Qed.

(** C2, as stated, fails at the expiry instant: a token created at second
    1700000000 still validates when the clock reads 1700000000 + 900. *)
Lemma validate_true_at_expiry_instant :
  table (set_Date_now 1700000900000 sample_world_issued) !! sample_token
    = Some {| token := sample_token; ttl := Some 1700000900%Z;
              createdAt := Some 1700000000%Z |}
  /\ (Date_now (set_Date_now 1700000900000 sample_world_issued) / 1000
      = 1700000000 + 15 * 60)%Z
  /\ result_of (Tokens.validateToken (JStr sample_token)
                  (set_Date_now 1700000900000 sample_world_issued))
     = Returns true.
Proof. vm_compute. auto. Qed.

Lemma validate_false_after_expiry_witness :
  result_of (Tokens.validateToken (JStr sample_token)
               (set_Date_now 1700000901000 sample_world_issued))
  = Returns false.
Proof.
  apply (@validate_false_after_expiry sample_json
           [issued_record sample_token 1700000000123]).
  - apply sample_reachable.
  - intros r [<- | []] _. exists 1700000000%Z. split; [reflexivity|]. vm_compute. reflexivity.
Defined.



Lemma malformed_body_is_bad_request_witness :
  calls_of (@GetAccessCode.handler sample_json (sample_event sample_body_no_testId)
              sample_world_issued) = [].
Proof.
  apply (@malformed_body_is_bad_request sample_json).
  intros (fs & tok & testId & Hparse & _ & _ & HtestId & _).
  vm_compute in Hparse. injection Hparse as <-.
  vm_compute in HtestId. discriminate.
Defined.

Lemma dev_mode_returns_mock_code_witness :
  exists resp : APIGatewayProxyResult,
    result_of (@GetAccessCode.handler sample_json (sample_event sample_body) sample_world_issued)
    = Returns resp
    /\ statusCode resp = 200%Z
    /\ resultHeaders resp = GetAccessCode.corsHeaders
    /\ resultBody resp
       = print (JObj [("accessCode", JStr "ABC123MOCK"); ("_dev", JBool true)]).
Proof.
  apply (@dev_mode_returns_mock_code sample_json _ _ sample_token "bogus-test");
    vm_compute; reflexivity.
Defined.


Lemma response_depends_on_token_and_testId_witness :
  @GetAccessCode.handler sample_json (sample_event sample_body) sample_world_live
  = @GetAccessCode.handler sample_json (sample_event sample_body_with_email) sample_world_live.
Proof.
  apply (@response_depends_on_token_and_testId sample_json _ _ _ sample_token "bogus-test");
    vm_compute; reflexivity.
Defined.

(** * Further properties of the code *)

(** ** Tokens: generation, storage, validation *)

Lemma remove_hyphens_filter (s : string) :
  list_ascii_of_string (Tokens.remove_hyphens s)
  = List.filter (fun c => negb (Ascii.eqb c "-"%char)) (list_ascii_of_string s).
Proof.
  induction s as [|c rest IH]; [reflexivity|].
  simpl. destruct (Ascii.eqb c "-"%char); simpl; by rewrite IH.
Qed.

(** X1: [generateToken] draws one UUID and returns it with every hyphen
    removed and all other characters kept in order: the token has no
    hyphen, and removing hyphens from it again changes nothing. *)
Theorem generateToken_strips_hyphens (w : World) :
  exists tok : string,
    Tokens.generateToken w = (Returns tok, set_uuid_drawn (S (uuid_drawn w)) w, [])
    /\ list_ascii_of_string tok
       = List.filter (fun c => negb (Ascii.eqb c "-"%char))
           (list_ascii_of_string (uuid_source w (uuid_drawn w)))
    /\ ~ In "-"%char (list_ascii_of_string tok)
    /\ Tokens.remove_hyphens tok = tok.
Proof.
  exists (next_token w). unfold next_token. split; [reflexivity|].
  split; [apply remove_hyphens_filter|]. split.
  - rewrite remove_hyphens_filter. intros Hin. apply List.filter_In in Hin as [_ Hc].
    by rewrite Ascii.eqb_refl in Hc.
  - generalize (uuid_source w (uuid_drawn w)). intros u.
    induction u as [|c rest IH]; [reflexivity|]. simpl.
    destruct (Ascii.eqb c "-"%char) eqn:Hc; [exact IH|]. simpl. by rewrite Hc, IH.
Qed.

Lemma storeToken_unfold (tok : string) (w : World) :
  Tokens.storeToken tok w =
    match dynamo_fault w with
    | Some e => (Throws e, w, [DynamoPut (issued_record tok (Date_now w))])
    | None =>
        (if (Z.abs ((Date_now w / 1000 + Tokens.TOKEN_TTL_SECONDS) * 1000)
               <=? 8640000000000000)%Z
         then Returns tt else Throws RangeError_invalid_time,
         set_table (<[tok := issued_record tok (Date_now w)]> (table w)) w,
         [DynamoPut (issued_record tok (Date_now w))])
    end.
Proof.
  unfold Tokens.storeToken, Tokens.nowSeconds, Tokens.dynamo_put, Date_toISOString,
    issued_record.
  run. split_cases.
Qed.

(** X2: a stored token validates.  After [storeToken] succeeded for a
    non-empty token at a time not before the epoch, [validateToken] returns
    [true] in every world where the store answers, still holds that record
    for the token, and the clock reads at most 900 seconds after the
    second of issuance; the only outside call is the lookup of the token. *)
Theorem stored_token_validates (tok : string) (w w1 w2 : World) (calls : list Event) :
  Tokens.storeToken tok w = (Returns tt, w1, calls) ->
  tok <> "" ->
  (0 <= Date_now w)%Z ->
  table w2 !! tok = table w1 !! tok ->
  dynamo_fault w2 = None ->
  (Date_now w2 / 1000 <= Date_now w / 1000 + 900)%Z ->
  Tokens.validateToken (JStr tok) w2 = (Returns true, w2, [DynamoGet tok]).
Proof.
  intros Hstore Hne Hepoch Hrec Hup Hwindow.
  rewrite storeToken_unfold in Hstore.
  destruct (dynamo_fault w); [done|].
  destruct (_ <=? _)%Z eqn:Hrange; [|done].
  injection Hstore as <- _.
  rewrite validateToken_unfold, Hup, Hrec.
  apply String.eqb_neq in Hne. rewrite Hne.
  simpl. rewrite lookup_insert_eq. unfold issued_record, Tokens.TOKEN_TTL_SECONDS in *.
  simpl. unfold Date_toISOString, result_of, ret, throw. simpl.
  assert (Hrange' := Hrange). apply Z.leb_le in Hrange'.
  assert (Hnow : (0 <= Date_now w / 1000)%Z) by (apply Z.div_pos; lia).
  assert (H1 : (Z.abs (Date_now w / 1000 * 1000) <=? 8640000000000000)%Z = true)
    by (apply Z.leb_le; lia).
  assert (H2 : (Date_now w / 1000 + 15 * 60 <? Date_now w2 / 1000)%Z = false)
    by (apply Z.ltb_ge; lia).
  by rewrite H1, H2, Hrange.
Qed.

Lemma stored_token_validates_witness :
  Tokens.validateToken (JStr sample_token)
    (set_Date_now 1700000900999 (world_of (Tokens.storeToken sample_token sample_world)))
  = (Returns true,
     set_Date_now 1700000900999 (world_of (Tokens.storeToken sample_token sample_world)),
     [DynamoGet sample_token]).
Proof.
  apply (stored_token_validates sample_token sample_world
           (world_of (Tokens.storeToken sample_token sample_world)) _
           (calls_of (Tokens.storeToken sample_token sample_world)));
    try reflexivity; try done; vm_compute; congruence.
Defined.

(** X3: validation is exact-key.  Running the token-request handler
    changes the outcome of [validateToken] for no value other than the
    token it has just drawn. *)
Theorem issuing_leaves_other_tokens `{JSON} (event : APIGatewayProxyEvent) (w : World)
    (other : JSValue) :
  other <> JStr (next_token w) ->
  Tokens.validateToken other (world_of (RequestToken.handler event w))
  = (result_of (Tokens.validateToken other w),
     world_of (RequestToken.handler event w),
     calls_of (Tokens.validateToken other w)).
Proof.
  intros Hother.
  assert (Hcases : (exists t, other = JStr t) \/ forall t, other <> JStr t)
    by (destruct other; eauto).
  destruct Hcases as [[t ->]|Hns]; [|by rewrite !validateToken_not_string].
  assert (Hsame : forall w', table w' !! t = table w !! t ->
                    dynamo_fault w' = dynamo_fault w -> Date_now w' = Date_now w ->
                    Tokens.validateToken (JStr t) w'
                    = (result_of (Tokens.validateToken (JStr t) w), w',
                       calls_of (Tokens.validateToken (JStr t) w))).
  { intros w' Ht Hf Hd. rewrite !validateToken_unfold, Ht, Hf, Hd.
    unfold Date_toISOString. split_cases. }
  rewrite issue_run. cbv zeta.
  destruct (String.eqb (httpMethod event) "OPTIONS"); [by apply Hsame|].
  destruct (negb (String.eqb (httpMethod event) "POST")); [by apply Hsame|].
  destruct (origin_differs _ _); [by apply Hsame|].
  destruct (dynamo_fault w) eqn:Hfault; apply Hsame; try done.
  unfold world_of. simpl. apply lookup_insert_ne. congruence.
Qed.

Lemma issuing_leaves_other_tokens_witness :
  result_of (Tokens.validateToken (JStr sample_token)
               (world_of (@RequestToken.handler sample_json (sample_event JNull)
                            sample_world_second)))
  = Returns true.
Proof.
  rewrite (@issuing_leaves_other_tokens sample_json).
  - vm_compute. reflexivity.
  - vm_compute. discriminate.
Defined.

(** X4: when exactly a value validates.  [validateToken] returns [true]
    if and only if the value is a non-empty string, the store answers and
    holds a record for it whose [ttl] and [createdAt] are numbers inside
    the range of JavaScript dates, and the clock, in whole seconds, has not
    passed [ttl]. *)
Theorem validateToken_true_iff (tok : JSValue) (w : World) :
  result_of (Tokens.validateToken tok w) = Returns true
  <-> exists (t : string) (r : TokenRecord) (expires created : Z),
        tok = JStr t /\ t <> ""
        /\ dynamo_fault w = None
        /\ table w !! t = Some r
        /\ ttl r = Some expires /\ createdAt r = Some created
        /\ (Date_now w / 1000 <= expires)%Z
        /\ (Z.abs (expires * 1000) <= 8640000000000000)%Z
        /\ (Z.abs (created * 1000) <= 8640000000000000)%Z.
Proof.
  split.
  - assert (Hcases : (exists t, tok = JStr t) \/ forall t, tok <> JStr t)
      by (destruct tok; eauto).
    destruct Hcases as [[t ->]|Hns]; [|by rewrite validateToken_not_string].
    rewrite validateToken_unfold.
    destruct (String.eqb t "") eqn:Ht; [done|]. apply String.eqb_neq in Ht.
    destruct (dynamo_fault w) eqn:Hfault; [done|].
    destruct (table w !! t) as [r|] eqn:Hr; [|done].
    destruct (ttl r) as [e|] eqn:He, (createdAt r) as [c|] eqn:Hc;
      unfold result_of, Date_toISOString, ret, throw; simpl.
    + intros [= Hb]. apply andb_true_iff in Hb as [Hlt Hdates].
      apply negb_true_iff, Z.ltb_ge in Hlt.
      destruct (Z.abs (c * 1000) <=? 8640000000000000)%Z eqn:Hcr; [|done].
      destruct (Z.abs (e * 1000) <=? 8640000000000000)%Z eqn:Her; [|done].
      apply Z.leb_le in Hcr, Her.
      exists t, r, e, c. repeat split; assumption.
    + intros [= Hb]. by apply andb_true_iff in Hb as [_ Hb].
    + intros [= Hb]. by destruct (Z.abs (c * 1000) <=? 8640000000000000)%Z.
    + done.
  - intros (t & r & e & c & -> & Ht & Hfault & Hr & He & Hc & Hnow & Her & Hcr).
    rewrite validateToken_unfold, Hfault, Hr, He, Hc.
    apply String.eqb_neq in Ht. rewrite Ht.
    unfold result_of, Date_toISOString, ret, throw. simpl.
    apply Z.leb_le in Her, Hcr. apply Z.ltb_ge in Hnow.
    by rewrite Her, Hcr, Hnow.
Qed.

Lemma validateToken_true_iff_witness :
  result_of (Tokens.validateToken (JStr sample_token) sample_world_issued) = Returns true.
Proof.
  apply validateToken_true_iff.
  exists sample_token,
    {| token := sample_token; ttl := Some 1700000900%Z; createdAt := Some 1700000000%Z |},
    1700000900%Z, 1700000000%Z.
  repeat split; try done; vm_compute; congruence.
Defined.

(** X5: validity never comes back with time alone.  With the store and
    its contents unchanged, a value that validates at some clock reading
    validates at every earlier reading too; so once a token is rejected as
    expired, it stays rejected at all later times. *)
Theorem validity_is_downward_closed (tok : JSValue) (w : World) (earlier later : Z) :
  (earlier <= later)%Z ->
  result_of (Tokens.validateToken tok (set_Date_now later w)) = Returns true ->
  result_of (Tokens.validateToken tok (set_Date_now earlier w)) = Returns true.
Proof.
  intros Horder.
  assert (Hcases : (exists t, tok = JStr t) \/ forall t, tok <> JStr t)
    by (destruct tok; eauto).
  destruct Hcases as [[t ->]|Hns]; [|by rewrite !validateToken_not_string].
  rewrite !validateToken_unfold. simpl.
  destruct (String.eqb t ""); [done|].
  destruct (dynamo_fault w); [done|].
  destruct (table w !! t) as [r|]; [|done].
  unfold result_of, Date_toISOString, ret, throw. simpl.
  intros [= Hb]. apply andb_true_iff in Hb as [Hlt Hdates].
  f_equal. apply andb_true_iff. split.
  - destruct (ttl r) as [e|]; [|done]. simpl in *.
    apply negb_true_iff, Z.ltb_ge in Hlt. apply negb_true_iff, Z.ltb_ge.
    pose proof (Z.div_le_mono earlier later 1000 ltac:(lia) Horder). lia.
  - revert Hdates. destruct (createdAt r), (ttl r); simpl; repeat case_match; done.
Qed.

Lemma validity_is_downward_closed_witness :
  result_of (Tokens.validateToken (JStr sample_token)
               (set_Date_now 1700000000500 sample_world_issued))
  = Returns true.
Proof.
  apply (validity_is_downward_closed _ _ 1700000000500 1700000900000);
    [lia | vm_compute; reflexivity].
Defined.

(** ** Secrets: lookup, caching and secret formats *)

(** X6: [getSecret] recovers every failure into [null].  It never throws;
    and when the name is not cached and Secrets Manager throws (whatever
    the error), has no [SecretString], or has an empty one, the result is
    [null] after that single call, with nothing added to the cache. *)
Theorem getSecret_recovers_failures (secretName : string) (w : World) :
  (exists v, result_of (Secrets.getSecret secretName w) = Returns v)
  /\ (secretsCache w !! secretName = None ->
      ((exists e, secretsManager w secretName = Throws e)
       \/ secretsManager w secretName = Returns None
       \/ secretsManager w secretName = Returns (Some "")) ->
      Secrets.getSecret secretName w = (Returns None, w, [SecretsManagerGet secretName])).
Proof.
  rewrite getSecret_unfold. split.
  - destruct (secretsCache w !! secretName); [by eexists|].
    destruct (secretsManager w secretName) as [[s|]|]; try by eexists.
    destruct (String.eqb s ""); by eexists.
  - intros -> [[e ->] | [-> | ->]]; reflexivity.
Qed.

Lemma getSecret_recovers_failures_witness :
  Secrets.getSecret "testportal-api-key" sample_world
  = (Returns None, sample_world, [SecretsManagerGet "testportal-api-key"]).
Proof.
  apply getSecret_recovers_failures; [reflexivity|].
  left. eexists. reflexivity.
Defined.

(** X7: a failed lookup is retried.  After a [getSecret] call that found
    nothing, as soon as Secrets Manager holds a non-empty value for the
    name the next call in the same container asks again, returns that
    value and caches it. *)
Theorem failed_lookup_is_retried (secretName v : string) (w : World)
    (backing : string -> Outcome (option string)) :
  result_of (Secrets.getSecret secretName w) = Returns None ->
  backing secretName = Returns (Some v) ->
  v <> "" ->
  let w1 := set_secretsManager backing (world_of (Secrets.getSecret secretName w)) in
  result_of (Secrets.getSecret secretName w1) = Returns (Some v)
  /\ calls_of (Secrets.getSecret secretName w1) = [SecretsManagerGet secretName]
  /\ secretsCache (world_of (Secrets.getSecret secretName w1)) !! secretName = Some v.
Proof.
  intros Hnone Hbacking Hv w1. subst w1.
  apply String.eqb_neq in Hv.
  rewrite getSecret_unfold in Hnone. rewrite (getSecret_unfold secretName w).
  assert (Hmiss : secretsCache w !! secretName = None
                  /\ world_of
                       match secretsCache w !! secretName with
                       | Some v0 => (Returns (Some v0), w, [])
                       | None =>
                           match secretsManager w secretName with
                           | Returns (Some v0) =>
                               if String.eqb v0 ""
                               then (Returns None, w, [SecretsManagerGet secretName])
                               else (Returns (Some v0),
                                     set_secretsCache (<[secretName:=v0]> (secretsCache w)) w,
                                     [SecretsManagerGet secretName])
                           | _ => (Returns None, w, [SecretsManagerGet secretName])
                           end
                       end = w).
  { destruct (secretsCache w !! secretName); [done|]. split; [done|].
    destruct (secretsManager w secretName) as [[s|]|]; try done.
    by destruct (String.eqb s ""). }
  destruct Hmiss as [Hmiss ->].
  rewrite getSecret_unfold. simpl. rewrite Hmiss, Hbacking, Hv. simpl.
  by rewrite lookup_insert_eq.
Qed.

Lemma failed_lookup_is_retried_witness :
  result_of (Secrets.getSecret "testportal-api-key"
               (set_secretsManager (fun _ => Returns (Some "live-key"))
                  (world_of (Secrets.getSecret "testportal-api-key" sample_world))))
  = Returns (Some "live-key").
Proof.
  apply (failed_lookup_is_retried "testportal-api-key" "live-key" sample_world
           (fun _ => Returns (Some "live-key"))); [reflexivity | reflexivity | done].
Defined.

(** X8: a lookup touches its own cache entry only.  [getSecret] changes
    nothing of the world but the secrets cache, leaves the cached value of
    every other name as it was, and makes at most one outside call, to
    Secrets Manager for the name asked. *)
Theorem getSecret_touches_own_entry (secretName : string) (w : World) :
  exists cache : gmap string string,
    world_of (Secrets.getSecret secretName w) = set_secretsCache cache w
    /\ (forall other, other <> secretName -> cache !! other = secretsCache w !! other)
    /\ (calls_of (Secrets.getSecret secretName w) = []
        \/ calls_of (Secrets.getSecret secretName w) = [SecretsManagerGet secretName]).
Proof.
  rewrite getSecret_unfold.
  assert (Hsame : exists cache : gmap string string,
            w = set_secretsCache cache w
            /\ (forall other, other <> secretName -> cache !! other = secretsCache w !! other)).
  { exists (secretsCache w). by rewrite set_secretsCache_same. }
  destruct Hsame as (c0 & Hw & Hc0).
  destruct (secretsCache w !! secretName).
  { exists c0. unfold world_of, calls_of. simpl. auto. }
  destruct (secretsManager w secretName) as [[s|]|];
    try (exists c0; unfold world_of, calls_of; simpl; by auto).
  destruct (String.eqb s "");
    [exists c0; unfold world_of, calls_of; simpl; by auto|].
  exists (<[secretName:=s]> (secretsCache w)). unfold world_of, calls_of. simpl.
  split; [reflexivity|]. split; [|by right].
  intros other Hother. by rewrite lookup_insert_ne.
Qed.

Section SecretFormats.
Context `{JSON}.

Lemma secret_resolution (first second secretValue : string) (w : World) :
  try_catch
    (parsed <- Secrets.parse secretValue ;;
     a <- lift (get_prop parsed first) ;;
     if truthy a then ret a
     else
       b <- lift (get_prop parsed second) ;;
       ret (js_or b (JStr secretValue)))
    (fun _ => ret (JStr secretValue)) w
  = (Returns (resolve_secret first second secretValue), w, []).
Proof.
  unfold resolve_secret, Secrets.parse.
  destruct (JSON_parse secretValue) as [parsed|]; run; [|done].
  destruct (get_prop parsed first) as [a|]; run; [|done].
  destruct (truthy a); run; [done|].
  by destruct (get_prop parsed second).
Qed.

Lemma getTestPortalApiKey_run (w : World) :
  Secrets.getTestPortalApiKey w =
    match env w !! "TESTPORTAL_SECRET_NAME" with
    | None => (Returns JNull, w, [])
    | Some secretName =>
        if String.eqb secretName "" then (Returns JNull, w, [])
        else
          (Returns match result_of (Secrets.getSecret secretName w) with
                   | Returns (Some secretValue) =>
                       if String.eqb secretValue "" then JNull
                       else resolve_secret "apiKey" "api_key" secretValue
                   | _ => JNull
                   end,
           world_of (Secrets.getSecret secretName w),
           calls_of (Secrets.getSecret secretName w))
    end.
Proof.
  unfold Secrets.getTestPortalApiKey.
  rewrite (bind_run _ _ w w (env w !! "TESTPORTAL_SECRET_NAME") []) by reflexivity.
  destruct (env w !! "TESTPORTAL_SECRET_NAME") as [secretName|]; [|reflexivity].
  destruct (String.eqb secretName ""); [reflexivity|].
  destruct (quiet_getSecret secretName w) as (v & cache & calls & Hrun & _).
  rewrite (bind_run _ _ _ _ _ _ Hrun), Hrun. simpl.
  destruct v as [secretValue|]; [|unfold result_of, world_of, calls_of; simpl;
                                   by rewrite app_nil_r].
  destruct (String.eqb secretValue "");
    [unfold result_of, world_of, calls_of; simpl; by rewrite app_nil_r|].
  rewrite secret_resolution. unfold result_of, world_of, calls_of. simpl.
  by rewrite app_nil_r.
Qed.

Lemma getAdminPassword_run (w : World) :
  Secrets.getAdminPassword w =
    match env w !! "ADMIN_PASSWORD_SECRET_NAME" with
    | None => (Returns JNull, w, [])
    | Some secretName =>
        if String.eqb secretName "" then (Returns JNull, w, [])
        else
          (Returns match result_of (Secrets.getSecret secretName w) with
                   | Returns (Some secretValue) =>
                       if String.eqb secretValue "" then JNull
                       else resolve_secret "password" "adminPassword" secretValue
                   | _ => JNull
                   end,
           world_of (Secrets.getSecret secretName w),
           calls_of (Secrets.getSecret secretName w))
    end.
Proof.
  unfold Secrets.getAdminPassword.
  rewrite (bind_run _ _ w w (env w !! "ADMIN_PASSWORD_SECRET_NAME") []) by reflexivity.
  destruct (env w !! "ADMIN_PASSWORD_SECRET_NAME") as [secretName|]; [|reflexivity].
  destruct (String.eqb secretName ""); [reflexivity|].
  destruct (quiet_getSecret secretName w) as (v & cache & calls & Hrun & _).
  rewrite (bind_run _ _ _ _ _ _ Hrun), Hrun. simpl.
  destruct v as [secretValue|]; [|unfold result_of, world_of, calls_of; simpl;
                                   by rewrite app_nil_r].
  destruct (String.eqb secretValue "");
    [unfold result_of, world_of, calls_of; simpl; by rewrite app_nil_r|].
  rewrite secret_resolution. unfold result_of, world_of, calls_of. simpl.
  by rewrite app_nil_r.
Qed.

Lemma resolve_secret_truthy (first second secretValue : string) :
  secretValue <> "" -> truthy (resolve_secret first second secretValue) = true.
Proof.
  intros Hne. apply String.eqb_neq in Hne.
  assert (Hraw : truthy (JStr secretValue) = true) by (simpl; by rewrite Hne).
  unfold resolve_secret. destruct (JSON_parse secretValue) as [parsed|]; [|done].
  destruct (get_prop parsed first) as [a|]; [|done].
  destruct (truthy a) eqn:Ha; [done|].
  destruct (get_prop parsed second) as [b|]; [|done].
  unfold js_or. by destruct (truthy b) eqn:Hb.
Qed.

(** X9: when the exchanger runs in development mode.  The credential
    lookup [getTestPortalApiKey] yields [null] exactly when the variable
    TESTPORTAL_SECRET_NAME is unset or empty, or [getSecret] finds no
    non-empty value under that name; with the variable unset or empty it
    does so without any outside call. *)
Theorem api_key_absent_iff (w : World) :
  (result_of (Secrets.getTestPortalApiKey w) = Returns JNull
   <-> match env w !! "TESTPORTAL_SECRET_NAME" with
       | None => True
       | Some secretName =>
           secretName = ""
           \/ result_of (Secrets.getSecret secretName w) = Returns None
           \/ result_of (Secrets.getSecret secretName w) = Returns (Some "")
       end)
  /\ ((env w !! "TESTPORTAL_SECRET_NAME" = None
       \/ env w !! "TESTPORTAL_SECRET_NAME" = Some "") ->
      Secrets.getTestPortalApiKey w = (Returns JNull, w, [])).
Proof.
  rewrite getTestPortalApiKey_run. split.
  - destruct (env w !! "TESTPORTAL_SECRET_NAME") as [secretName|]; [|done].
    destruct (String.eqb secretName "") eqn:Hname.
    { apply String.eqb_eq in Hname. split; auto. }
    apply String.eqb_neq in Hname.
    destruct (quiet_getSecret secretName w) as (v & cache & calls & -> & _).
    unfold result_of. simpl. destruct v as [secretValue|].
    + destruct (String.eqb secretValue "") eqn:Hv.
      * apply String.eqb_eq in Hv as ->. split; auto.
      * apply String.eqb_neq in Hv. split.
        -- intros [= Hnull]. pose proof (resolve_secret_truthy "apiKey" "api_key" _ Hv) as Ht.
           by rewrite Hnull in Ht.
        -- intros [? | [? | ?]]; congruence.
    + split; auto.
  - intros [-> | ->]; reflexivity.
Qed.

(** X10: which part of the secret is the API key.  When a non-empty
    secret is found under the configured name: a secret that is not JSON
    is the key itself; a JSON object is searched for a truthy [apiKey],
    then for a truthy [api_key], and the whole secret string is the key
    when it has neither. *)
Theorem api_key_of_secret_format (w : World) (secretName secretValue : string) :
  env w !! "TESTPORTAL_SECRET_NAME" = Some secretName ->
  secretName <> "" ->
  result_of (Secrets.getSecret secretName w) = Returns (Some secretValue) ->
  secretValue <> "" ->
  (JSON_parse secretValue = None ->
     result_of (Secrets.getTestPortalApiKey w) = Returns (JStr secretValue))
  /\ (forall fs key,
        JSON_parse secretValue = Some (JObj fs) ->
        field "apiKey" fs = Some key -> truthy key = true ->
        result_of (Secrets.getTestPortalApiKey w) = Returns key)
  /\ (forall fs key,
        JSON_parse secretValue = Some (JObj fs) ->
        truthy (default JUndefined (field "apiKey" fs)) = false ->
        field "api_key" fs = Some key -> truthy key = true ->
        result_of (Secrets.getTestPortalApiKey w) = Returns key)
  /\ (forall fs,
        JSON_parse secretValue = Some (JObj fs) ->
        truthy (default JUndefined (field "apiKey" fs)) = false ->
        truthy (default JUndefined (field "api_key" fs)) = false ->
        result_of (Secrets.getTestPortalApiKey w) = Returns (JStr secretValue)).
Proof.
  intros Henv Hname Hsecret Hvalue.
  apply String.eqb_neq in Hname, Hvalue.
  rewrite getTestPortalApiKey_run, Henv, Hname, Hsecret, Hvalue.
  unfold result_of at 1 2 3 4. simpl. unfold resolve_secret.
  repeat split.
  - by intros ->.
  - intros fs key -> Hkey Ht. simpl. rewrite Hkey. simpl. by rewrite Ht.
  - intros fs key -> Hno Hkey Ht. simpl. rewrite Hno, Hkey. simpl.
    unfold js_or. by rewrite Ht.
  - intros fs -> Hno1 Hno2. simpl. rewrite Hno1. unfold js_or. by rewrite Hno2.
Qed.

(** X11: which part of the secret is the admin password.  For a non-empty
    secret found under ADMIN_PASSWORD_SECRET_NAME, [getAdminPassword]
    returns the secret itself when it is not JSON, a truthy [password]
    field of a JSON object, else a truthy [adminPassword] field, else the
    whole secret string; the result is never falsy, and it is [null]
    whenever the variable is unset or empty. *)
Theorem admin_password_of_secret_format (w : World) (secretName secretValue : string) :
  ((env w !! "ADMIN_PASSWORD_SECRET_NAME" = None
    \/ env w !! "ADMIN_PASSWORD_SECRET_NAME" = Some "") ->
   Secrets.getAdminPassword w = (Returns JNull, w, []))
  /\ (env w !! "ADMIN_PASSWORD_SECRET_NAME" = Some secretName ->
      secretName <> "" ->
      result_of (Secrets.getSecret secretName w) = Returns (Some secretValue) ->
      secretValue <> "" ->
      (exists password, result_of (Secrets.getAdminPassword w) = Returns password
                        /\ truthy password = true)
      /\ (JSON_parse secretValue = None ->
            result_of (Secrets.getAdminPassword w) = Returns (JStr secretValue))
      /\ (forall fs password,
            JSON_parse secretValue = Some (JObj fs) ->
            field "password" fs = Some password -> truthy password = true ->
            result_of (Secrets.getAdminPassword w) = Returns password)
      /\ (forall fs password,
            JSON_parse secretValue = Some (JObj fs) ->
            truthy (default JUndefined (field "password" fs)) = false ->
            field "adminPassword" fs = Some password -> truthy password = true ->
            result_of (Secrets.getAdminPassword w) = Returns password)
      /\ (forall fs,
            JSON_parse secretValue = Some (JObj fs) ->
            truthy (default JUndefined (field "password" fs)) = false ->
            truthy (default JUndefined (field "adminPassword" fs)) = false ->
            result_of (Secrets.getAdminPassword w) = Returns (JStr secretValue))).
Proof.
  rewrite getAdminPassword_run. split.
  { intros [-> | ->]; reflexivity. }
  intros Henv Hname Hsecret Hvalue.
  pose proof (resolve_secret_truthy "password" "adminPassword" _ Hvalue) as Htruthy.
  apply String.eqb_neq in Hname, Hvalue.
  rewrite Henv, Hname, Hsecret, Hvalue.
  unfold result_of at 1 2 3 4 5. simpl.
  split; [by eexists|]. unfold resolve_secret.
  repeat split.
  - by intros ->.
  - intros fs key -> Hkey Ht. simpl. rewrite Hkey. simpl. by rewrite Ht.
  - intros fs key -> Hno Hkey Ht. simpl. rewrite Hno, Hkey. simpl.
    unfold js_or. by rewrite Ht.
  - intros fs -> Hno1 Hno2. simpl. rewrite Hno1. unfold js_or. by rewrite Hno2.
Qed.

End SecretFormats.

Lemma api_key_absent_iff_witness :
  result_of (@Secrets.getTestPortalApiKey sample_json sample_world) = Returns JNull.
Proof.
  apply (proj1 (@api_key_absent_iff sample_json sample_world)).
  vm_compute. auto.
Defined.

Lemma api_key_of_secret_format_witness :
  result_of (@Secrets.getTestPortalApiKey sample_json sample_world_live)
  = Returns (JStr "live-key").
Proof.
  apply (@api_key_of_secret_format sample_json sample_world_live
           "ice-testportal/testportal-api-key/dev" "live-key");
    try reflexivity; done.
Defined.

Lemma admin_password_of_secret_format_witness :
  result_of (@Secrets.getAdminPassword sample_json sample_world_admin)
  = Returns (JStr "s3cret").
Proof.
  apply (proj2 (@admin_password_of_secret_format sample_json sample_world_admin
                  "ice-testportal/admin-password/dev" "s3cret"));
    try reflexivity; done.
Defined.

Lemma getSecret_touches_own_entry_witness :
  secretsCache (world_of (Secrets.getSecret "testportal-api-key" sample_world_admin))
    !! "ice-testportal/admin-password/dev"
  = Some "s3cret".
Proof.
  destruct (getSecret_touches_own_entry "testportal-api-key" sample_world_admin)
    as (cache & Hworld & Hother & _).
  rewrite Hworld. simpl. rewrite Hother; done.
Defined.

(** ** The exchange: provider replies, call counts, gates *)

Lemma answers_exchange `{JSON} (status : Z) (body : JSValue) :
  answers (Returns (GetAccessCode.createResponse status body)) status
    GetAccessCode.corsHeaders body.
Proof. eexists. by repeat split. Qed.

Lemma answers_login `{JSON} (status : Z) (body : JSValue) :
  answers (Returns (AdminLogin.createResponse status body)) status
    AdminLogin.corsHeaders body.
Proof. eexists. by repeat split. Qed.

Lemma answers_tests `{JSON} (status : Z) (body : JSValue) :
  answers (Returns (AdminTests.createResponse status body)) status
    AdminTests.corsHeaders body.
Proof. eexists. by repeat split. Qed.

Section ExchangeMore.
Context `{JSON}.

Lemma exchange_with_key (event : APIGatewayProxyEvent) (w : World) (tok testId : string)
    (apiKey : JSValue) :
  accepted event = Some (tok, testId) ->
  result_of (Tokens.validateToken (JStr tok) w) = Returns true ->
  result_of (Secrets.getTestPortalApiKey w) = Returns apiKey ->
  truthy apiKey = true ->
  GetAccessCode.handler event w =
    (Returns (respond (interpret_reply (provider w (provider_request w testId apiKey)))),
     world_of (Secrets.getTestPortalApiKey w),
     (DynamoGet tok :: calls_of (Secrets.getTestPortalApiKey w)
        ++ [ProviderFetch (provider_request w testId apiKey)])%list).
Proof.
  intros Hacc Hvalid Hk Htruthy.
  destruct (quiet_getTestPortalApiKey w) as (k & cache & kcalls & Hkey & _).
  rewrite Hkey in Hk |- *. injection Hk as ->.
  rewrite (handler_accepted _ _ _ _ Hacc), (exchange_run _ _ _ _ _ _ Hkey), Hvalid, Htruthy.
  by rewrite (exchange_calls_head _ _ Hvalid), provider_request_cache.
Qed.

Lemma key_calls_quiet (w : World) :
  filter is_provider_call (calls_of (Secrets.getTestPortalApiKey w)) = []
  /\ filter is_store_call (calls_of (Secrets.getTestPortalApiKey w)) = [].
Proof.
  destruct (quiet_getTestPortalApiKey w) as (k & cache & kcalls & -> & _ & Hp & Hs).
  done.
Qed.

(** X12: the access code of a successful reply, and the order in which
    its field names are tried.  For an accepted request with a valid token
    and a configured credential, when the provider answers with a success
    status and a JSON object whose [accessCodes] starts with an object,
    the handler answers with status 200 and, as its body, the
    serialisation of [{accessCode: code}], where [code] is the non-empty
    string found under [accessCode]; failing a truthy [accessCode], under
    [access_code]; failing both, under [code].  The body carries no [_dev]
    flag, and the run makes exactly one provider call, the request for
    this test id. *)
Theorem provider_success_returns_code (event : APIGatewayProxyEvent) (w : World)
    (tok testId code : string) (apiKey : JSValue) (reply : Response)
    (fs entry : list (string * JSValue)) (others : list JSValue) :
  accepted event = Some (tok, testId) ->
  result_of (Tokens.validateToken (JStr tok) w) = Returns true ->
  result_of (Secrets.getTestPortalApiKey w) = Returns apiKey ->
  truthy apiKey = true ->
  provider w (provider_request w testId apiKey) = Returns reply ->
  ok reply = true ->
  json reply = Returns (JObj fs) ->
  field "accessCodes" fs = Some (JArr (JObj entry :: others)) ->
  code <> "" ->
  (field "accessCode" entry = Some (JStr code)
   \/ (truthy (default JUndefined (field "accessCode" entry)) = false
       /\ field "access_code" entry = Some (JStr code))
   \/ (truthy (default JUndefined (field "accessCode" entry)) = false
       /\ truthy (default JUndefined (field "access_code" entry)) = false
       /\ field "code" entry = Some (JStr code))) ->
  answers (result_of (GetAccessCode.handler event w)) 200 GetAccessCode.corsHeaders
    (JObj [("accessCode", JStr code)])
  /\ filter is_provider_call (calls_of (GetAccessCode.handler event w))
     = [ProviderFetch (provider_request w testId apiKey)].
Proof.
  intros Hacc Hvalid Hk Htruthy Hreply Hok Hjson Hcodes Hcode Hfield.
  rewrite (exchange_with_key _ _ _ _ _ Hacc Hvalid Hk Htruthy), Hreply.
  apply String.eqb_neq in Hcode.
  assert (Ht : truthy (JStr code) = true) by (simpl; by rewrite Hcode).
  assert (Hrecognized : recognized_code (JObj fs) = JStr code).
  { unfold recognized_code.
    change (get_prop_opt (JObj fs) "accessCodes")
      with (default JUndefined (field "accessCodes" fs)).
    rewrite Hcodes.
    change (get_first_opt (default JUndefined (Some (JArr (JObj entry :: others)))))
      with (JObj entry).
    change (get_prop_opt (JObj entry) ?k) with (default JUndefined (field k entry)).
    unfold js_or.
    destruct Hfield as [H1 | [[H0 H1] | (H0 & H0' & H1)]].
    - rewrite H1.
      change (default JUndefined (Some (JStr code))) with (JStr code). by rewrite !Ht.
    - rewrite H0, H1.
      change (default JUndefined (Some (JStr code))) with (JStr code). by rewrite !Ht.
    - by rewrite H0, H0', H1. }
  split.
  - unfold interpret_reply. rewrite Hok, Hjson. simpl get_prop. cbv iota.
    rewrite Hrecognized, Hcode. apply answers_exchange.
  - destruct (key_calls_quiet w) as [Hquiet _].
    unfold calls_of in *. cbn [snd].
    change (DynamoGet tok :: ?l) with ([DynamoGet tok] ++ l)%list.
    rewrite !filter_app, Hquiet. reflexivity.
Qed.

(** X13: one lookup, one provider call, no write.  Whatever the event and
    the world, a run of the exchange handler makes at most one provider
    call and at most one store call, hands nothing to the store for
    writing, and changes nothing of the world but the secrets cache. *)
Theorem exchange_calls_at_most_once (event : APIGatewayProxyEvent) (w : World) :
  (length (filter is_provider_call (calls_of (GetAccessCode.handler event w))) <= 1)%nat
  /\ (length (filter is_store_call (calls_of (GetAccessCode.handler event w))) <= 1)%nat
  /\ puts_of (calls_of (GetAccessCode.handler event w)) = []
  /\ exists cache, world_of (GetAccessCode.handler event w) = set_secretsCache cache w.
Proof.
  assert (Hputs : forall calls, filter is_store_call calls = [] -> puts_of calls = []).
  { intros calls. unfold puts_of. induction calls as [|[] calls IH]; simpl; try done.
    all: rewrite ?filter_cons; simpl; try done. }
  assert (Hsame : exists cache, w = set_secretsCache cache w)
    by (exists (secretsCache w); by rewrite set_secretsCache_same).
  destruct (accepted event) as [[tok testId]|] eqn:Hacc.
  - destruct (quiet_getTestPortalApiKey w) as (apiKey & cache & kcalls & Hkey & _ & Hp & Hs).
    rewrite (handler_accepted _ _ _ _ Hacc), (exchange_run _ _ _ _ _ _ Hkey).
    pose proof (validateToken_calls (JStr tok) w) as Hvcalls. cbv beta iota in Hvcalls.
    set (vcalls := calls_of (Tokens.validateToken (JStr tok) w)) in *.
    assert (Hvp : filter is_provider_call vcalls = [])
      by (rewrite Hvcalls; by destruct (String.eqb tok "")).
    assert (Hvs : (length (filter is_store_call vcalls) <= 1)%nat)
      by (rewrite Hvcalls; destruct (String.eqb tok ""); simpl; lia).
    assert (Hvw : puts_of vcalls = [])
      by (rewrite Hvcalls; by destruct (String.eqb tok "")).
    pose proof (Hputs kcalls Hs) as Hkw.
    destruct (result_of (Tokens.validateToken (JStr tok) w)) as [[|]|e];
      [destruct (truthy apiKey)| |]; unfold calls_of, world_of; cbn [fst snd];
      unfold puts_of in *; rewrite ?omap_app, ?filter_app, ?length_app,
        ?Hp, ?Hs, ?Hvp, ?Hvw, ?Hkw; simpl; repeat split; eauto; lia.
  - destruct (handler_rejected event w Hacc) as (resp & -> & _).
    unfold calls_of, world_of. simpl. repeat split; try lia. done.
Qed.

(** X14: a provider that cannot be reached is a 502 with the reason.  For
    an accepted request with a valid token and a configured credential,
    when [fetch] itself fails the handler returns a response of status 502
    whose body is the serialisation of the failure message and of an
    error detail: the message of the error thrown, or the text
    "Unknown error occurred" when what was thrown is not an [Error]. *)
Theorem provider_unreachable_is_bad_gateway (event : APIGatewayProxyEvent) (w : World)
    (tok testId : string) (apiKey : JSValue) (e : Exn) :
  accepted event = Some (tok, testId) ->
  result_of (Tokens.validateToken (JStr tok) w) = Returns true ->
  result_of (Secrets.getTestPortalApiKey w) = Returns apiKey ->
  truthy apiKey = true ->
  provider w (provider_request w testId apiKey) = Throws e ->
  answers (result_of (GetAccessCode.handler event w)) 502 GetAccessCode.corsHeaders
    (JObj [("message", JStr "Failed to retrieve access code from TestPortal");
           ("error", JStr (error_message e))]).
Proof.
  intros Hacc Hvalid Hk Htruthy Hreply.
  rewrite (exchange_with_key _ _ _ _ _ Hacc Hvalid Hk Htruthy), Hreply.
  unfold interpret_reply, respond, result_of. cbn [fst negb TestPortal.success
    TestPortal.error optional_string].
  destruct e; apply answers_exchange.
Qed.

(** X15: an access code that is not a string is a provider failure.  When
    the first entry of [accessCodes] in a success reply carries a truthy
    [accessCode] that is not a string, the handler answers with status 502
    and, as its body, the serialisation of the failure message and of the
    engine's message for calling [substring] on that value: no access code
    reaches the client. *)
Theorem non_string_code_is_bad_gateway (event : APIGatewayProxyEvent) (w : World)
    (tok testId : string) (apiKey code : JSValue) (reply : Response)
    (fs entry : list (string * JSValue)) (others : list JSValue) :
  accepted event = Some (tok, testId) ->
  result_of (Tokens.validateToken (JStr tok) w) = Returns true ->
  result_of (Secrets.getTestPortalApiKey w) = Returns apiKey ->
  truthy apiKey = true ->
  provider w (provider_request w testId apiKey) = Returns reply ->
  ok reply = true ->
  json reply = Returns (JObj fs) ->
  field "accessCodes" fs = Some (JArr (JObj entry :: others)) ->
  field "accessCode" entry = Some code ->
  truthy code = true ->
  (forall s, code <> JStr s) ->
  answers (result_of (GetAccessCode.handler event w)) 502 GetAccessCode.corsHeaders
    (JObj [("message", JStr "Failed to retrieve access code from TestPortal");
           ("error", JStr "accessCode.substring is not a function")]).
Proof.
  intros Hacc Hvalid Hk Htruthy Hreply Hok Hjson Hcodes Hcode Htc Hns.
  rewrite (exchange_with_key _ _ _ _ _ Hacc Hvalid Hk Htruthy), Hreply.
  assert (Hrecognized : recognized_code (JObj fs) = code).
  { unfold recognized_code.
    change (get_prop_opt (JObj fs) "accessCodes")
      with (default JUndefined (field "accessCodes" fs)).
    rewrite Hcodes.
    change (get_first_opt (default JUndefined (Some (JArr (JObj entry :: others)))))
      with (JObj entry).
    change (get_prop_opt (JObj entry) ?k) with (default JUndefined (field k entry)).
    rewrite Hcode. change (default JUndefined (Some code)) with code.
    unfold js_or. by rewrite !Htc. }
  unfold interpret_reply. rewrite Hok, Hjson. simpl get_prop. cbv iota.
  rewrite Hrecognized.
  destruct code as [| |b|n|s|l|fs']; try done; try (by destruct (Hns s));
    rewrite Htc; apply answers_exchange.
Qed.

End ExchangeMore.

Lemma provider_success_returns_code_witness :
  @answers sample_json
    (result_of (@GetAccessCode.handler sample_json (sample_event sample_body)
                  (sample_world_answering
                     (JObj [("accessCodes",
                             JArr [JObj [("accessCode", JStr "");
                                         ("access_code", JStr "XY12")]])]))))
    200 GetAccessCode.corsHeaders (JObj [("accessCode", JStr "XY12")]).
Proof.
  apply (@provider_success_returns_code sample_json _ _ sample_token "bogus-test" "XY12"
           (JStr "live-key")
           {| status := 200; statusText := "OK"; text := Returns "";
              json := Returns
                (JObj [("accessCodes",
                        JArr [JObj [("accessCode", JStr ""); ("access_code", JStr "XY12")]])]) |}
           [("accessCodes", JArr [JObj [("accessCode", JStr ""); ("access_code", JStr "XY12")]])]
           [("accessCode", JStr ""); ("access_code", JStr "XY12")] []);
    try (vm_compute; reflexivity); try done.
  right. left. split; reflexivity.
Defined.

Lemma provider_unreachable_is_bad_gateway_witness :
  @answers sample_json
    (result_of (@GetAccessCode.handler sample_json (sample_event sample_body)
                  (set_provider (fun _ => Throws (JsError "TypeError" "fetch failed"))
                     sample_world_live)))
    502 GetAccessCode.corsHeaders
    (JObj [("message", JStr "Failed to retrieve access code from TestPortal");
           ("error", JStr "fetch failed")]).
Proof.
  apply (@provider_unreachable_is_bad_gateway sample_json _ _ sample_token "bogus-test"
           (JStr "live-key") (JsError "TypeError" "fetch failed"));
    vm_compute; reflexivity.
Defined.

Lemma non_string_code_is_bad_gateway_witness :
  @answers sample_json
    (result_of (@GetAccessCode.handler sample_json (sample_event sample_body)
                  (sample_world_answering
                     (JObj [("accessCodes", JArr [JObj [("accessCode", JNum 12345)]])]))))
    502 GetAccessCode.corsHeaders
    (JObj [("message", JStr "Failed to retrieve access code from TestPortal");
           ("error", JStr "accessCode.substring is not a function")]).
Proof.
  apply (@non_string_code_is_bad_gateway sample_json _ _ sample_token "bogus-test"
           (JStr "live-key") (JNum 12345)
           {| status := 200; statusText := "OK"; text := Returns "";
              json := Returns (JObj [("accessCodes", JArr [JObj [("accessCode", JNum 12345)]])]) |}
           [("accessCodes", JArr [JObj [("accessCode", JNum 12345)]])]
           [("accessCode", JNum 12345)] []);
    try (vm_compute; reflexivity); done.
Defined.

(** ** Origin binding and the issue-then-exchange flow *)

Section Gates.
Context `{JSON}.

Lemma origin_allowed (event : APIGatewayProxyEvent) (allowed : string) :
  origin_differs (origin_of event) allowed = false <-> origin_of event = Some allowed.
Proof.
  unfold origin_differs. destruct (origin_of event) as [s|]; [|done].
  rewrite negb_false_iff, String.eqb_eq. split; congruence.
Qed.

Lemma getSecret_result_frame (secretName : string) (w w' : World) :
  secretsCache w' = secretsCache w ->
  secretsManager w' = secretsManager w ->
  result_of (Secrets.getSecret secretName w') = result_of (Secrets.getSecret secretName w).
Proof.
  intros Hc Hm. rewrite !getSecret_unfold, Hc, Hm.
  destruct (secretsCache w !! secretName); [done|].
  destruct (secretsManager w secretName) as [[s|]|]; try done.
  by destruct (String.eqb s "").
Qed.

Lemma api_key_frame (w w' : World) :
  env w' = env w ->
  secretsCache w' = secretsCache w ->
  secretsManager w' = secretsManager w ->
  result_of (Secrets.getTestPortalApiKey w') = result_of (Secrets.getTestPortalApiKey w).
Proof.
  intros He Hc Hm. rewrite !getTestPortalApiKey_run, He.
  destruct (env w !! "TESTPORTAL_SECRET_NAME") as [name|]; [|done].
  destruct (String.eqb name ""); [done|].
  unfold result_of at 1 3. cbn [fst].
  by rewrite (getSecret_result_frame name w w' Hc Hm).
Qed.



(** X18: issue, then exchange, in development mode.  After a token request
    answered 200, an accepted exchange request carrying the token just
    drawn, made while the store answers and the clock reads at most 900
    seconds past the second of issuance, and with no credential
    configured, is answered with status 200 and, as its body, the
    serialisation of the mock code with the [_dev] flag, whatever the test
    id. *)
Theorem issue_then_exchange_dev_mode (issue exchange_event : APIGatewayProxyEvent)
    (w : World) (resp : APIGatewayProxyResult) (testId : string) (ms : Z) :
  result_of (RequestToken.handler issue w) = Returns resp ->
  statusCode resp = 200%Z ->
  accepted exchange_event = Some (next_token w, testId) ->
  (0 <= Date_now w)%Z ->
  (ms / 1000 <= Date_now w / 1000 + 900)%Z ->
  result_of (Secrets.getTestPortalApiKey w) = Returns JNull ->
  answers
    (result_of (GetAccessCode.handler exchange_event
                  (set_Date_now ms (world_of (RequestToken.handler issue w)))))
    200 GetAccessCode.corsHeaders
    (JObj [("accessCode", JStr "ABC123MOCK"); ("_dev", JBool true)]).
Proof.
  intros Hrun Hok Hacc Hepoch Hwindow Hnokey.
  pose proof (accepted_well_formed _ _ _ Hacc) as (_ & Htok & _).
  set (w2 := set_Date_now ms (world_of (RequestToken.handler issue w))).
  assert (Hvalid : result_of (Tokens.validateToken (JStr (next_token w)) w2) = Returns true
                   /\ result_of (Secrets.getTestPortalApiKey w2) = Returns JNull).
  { subst w2. revert Hrun. rewrite issue_run. cbv zeta.
    destruct (String.eqb (httpMethod issue) "OPTIONS");
      [intros [= <-]; by simpl in Hok|].
    destruct (negb (String.eqb (httpMethod issue) "POST"));
      [intros [= <-]; by simpl in Hok|].
    destruct (origin_differs _ _); [intros [= <-]; by simpl in Hok|].
    destruct (dynamo_fault w) eqn:Hfault; [intros [= <-]; by simpl in Hok|].
    destruct (_ <=? _)%Z eqn:Hrange; [|intros [= <-]; by simpl in Hok].
    intros _. unfold world_of. cbn [fst snd]. split.
    - rewrite validateToken_unfold. apply String.eqb_neq in Htok. rewrite Htok.
      simpl. rewrite Hfault, lookup_insert_eq.
      unfold issued_record, Tokens.TOKEN_TTL_SECONDS in *.
      unfold result_of, Date_toISOString, ret, throw. simpl.
      assert (Hnow : (0 <= Date_now w / 1000)%Z) by (apply Z.div_pos; lia).
      assert (Hrange' := Hrange). apply Z.leb_le in Hrange'.
      assert (H1 : (Z.abs (Date_now w / 1000 * 1000) <=? 8640000000000000)%Z = true)
        by (apply Z.leb_le; lia).
      assert (H2 : (Date_now w / 1000 + 15 * 60 <? ms / 1000)%Z = false)
        by (apply Z.ltb_ge; lia).
      by rewrite H1, H2, Hrange.
    - by rewrite <- Hnokey; apply api_key_frame. }
  destruct Hvalid as [Hvalid Hkey].
  destruct (quiet_getTestPortalApiKey w2) as (apiKey & cache & kcalls & Hk & _).
  rewrite Hk in Hkey. injection Hkey as ->.
  rewrite (handler_accepted _ _ _ _ Hacc), (exchange_run _ _ _ _ _ _ Hk), Hvalid.
  apply answers_exchange.
Qed.

End Gates.



Lemma issue_then_exchange_dev_mode_witness :
  @answers sample_json
    (result_of (@GetAccessCode.handler sample_json (sample_event sample_body)
                  (set_Date_now 1700000000124
                     (world_of (@RequestToken.handler sample_json (sample_event JNull)
                                  sample_world)))))
    200 GetAccessCode.corsHeaders
    (JObj [("accessCode", JStr "ABC123MOCK"); ("_dev", JBool true)]).
Proof.
  apply (@issue_then_exchange_dev_mode sample_json (sample_event JNull)
           (sample_event sample_body) sample_world
           (@RequestToken.createResponse sample_json 200
              (JObj [("token", JStr sample_token)])) "bogus-test");
    try (vm_compute; reflexivity); vm_compute; congruence.
Defined.

(** ** The admin surface: login *)

Section Admin.
Context `{JSON}.

Lemma quiet_getAdminPassword :
  quiet Secrets.getAdminPassword (fun password => password = JNull \/ truthy password = true).
Proof.
  intros w. rewrite getAdminPassword_run.
  destruct (env w !! "ADMIN_PASSWORD_SECRET_NAME") as [name|];
    [|exists JNull, (secretsCache w), []; rewrite set_secretsCache_same; auto].
  destruct (String.eqb name "");
    [exists JNull, (secretsCache w), []; rewrite set_secretsCache_same; auto|].
  destruct (quiet_getSecret name w) as (v & cache & calls & -> & _ & Hp & Hs).
  unfold result_of, world_of, calls_of. cbn [fst snd].
  eexists _, cache, calls. split; [reflexivity|]. split; [|done].
  destruct v as [secretValue|]; [|by left].
  destruct (String.eqb secretValue "") eqn:Hv; [by left|].
  right. apply resolve_secret_truthy. by apply String.eqb_neq.
Qed.

Lemma strict_eq_string (p : string) (v : JSValue) :
  strict_eq (JStr p) v = true <-> v = JStr p.
Proof.
  destruct v; simpl; try (split; [discriminate|discriminate]).
  rewrite String.eqb_eq. split; congruence.
Qed.

(** X19: the login accepts the configured password and nothing else.  The
    admin login handler answers 200 only to a POST from the admin origin
    whose JSON body has a non-empty string [password] equal to the value
    [getAdminPassword] returns; and every such request is answered with
    status 200 and the serialisation of [{ok: true}] as its body. *)
Theorem admin_login_accepts_exactly_the_password (event : APIGatewayProxyEvent) (w : World) :
  (forall resp,
     result_of (AdminLogin.handler event w) = Returns resp ->
     statusCode resp = 200%Z ->
     exists requestBody password,
       httpMethod event = "POST"
       /\ origin_of event = Some AdminLogin.ALLOWED_ORIGIN
       /\ GetAccessCode.parse_body event = Some requestBody
       /\ get_prop_opt requestBody "password" = JStr password
       /\ password <> ""
       /\ result_of (Secrets.getAdminPassword w) = Returns (JStr password))
  /\ (forall requestBody password,
        httpMethod event = "POST" ->
        origin_of event = Some AdminLogin.ALLOWED_ORIGIN ->
        GetAccessCode.parse_body event = Some requestBody ->
        get_prop_opt requestBody "password" = JStr password ->
        password <> "" ->
        result_of (Secrets.getAdminPassword w) = Returns (JStr password) ->
        answers (result_of (AdminLogin.handler event w)) 200 AdminLogin.corsHeaders
          (JObj [("ok", JBool true)])).
Proof.
  destruct (quiet_getAdminPassword w) as (expected & cache & calls & Hrun & _).
  unfold AdminLogin.handler. split.
  - intros resp.
    destruct (String.eqb (httpMethod event) "OPTIONS"); [by intros [= <-]|].
    destruct (String.eqb (httpMethod event) "POST") eqn:Hpost; [|by intros [= <-]].
    apply String.eqb_eq in Hpost. cbn [negb].
    destruct (origin_differs _ _) eqn:Horigin; [by intros [= <-]|].
    apply origin_allowed in Horigin.
    destruct (GetAccessCode.parse_body event) as [requestBody|]; [|by intros [= <-]].
    destruct (get_prop_opt requestBody "password") as [| | | |p| |] eqn:Hp;
      try (by intros [= <-]).
    destruct p as [|c p']; [by intros [= <-]|].
    cbn [typeof]. rewrite String.eqb_refl. cbn [negb orb String.length Nat.eqb].
    rewrite (bind_run _ _ _ _ _ _ Hrun), Hrun.
    destruct (truthy expected); [|by intros [= <-]].
    destruct (strict_eq (JStr (String c p')) expected) eqn:Heq; [|by intros [= <-]].
    apply strict_eq_string in Heq as ->. intros _ _.
    by exists requestBody, (String c p').
  - intros requestBody password Hpost Horigin Hbody Hp Hne Hexpected.
    rewrite Hrun in Hexpected. injection Hexpected as ->.
    rewrite Hpost, Horigin, Hbody, Hp. simpl.
    destruct password as [|c p']; [done|]. simpl.
    rewrite (bind_run _ _ _ _ _ _ Hrun). simpl.
    rewrite String.eqb_refl, Ascii.eqb_refl. apply answers_login.
Qed.

(** X20: how the login fails.  The admin login handler never throws and
    never calls the store or the provider.  A POST from the admin origin
    whose body has no non-empty string [password] is answered with status
    400 before any secret is looked up; with a password given, it is
    answered with status 500 when no admin password is configured and with
    status 401 when the configured one differs, each with the
    serialisation of its message as the body. *)
Theorem admin_login_failures (event : APIGatewayProxyEvent) (w : World) :
  (exists resp, result_of (AdminLogin.handler event w) = Returns resp)
  /\ filter is_store_call (calls_of (AdminLogin.handler event w)) = []
  /\ filter is_provider_call (calls_of (AdminLogin.handler event w)) = []
  /\ (httpMethod event = "POST" ->
      origin_of event = Some AdminLogin.ALLOWED_ORIGIN ->
      forall requestBody,
        GetAccessCode.parse_body event = Some requestBody ->
        ((forall password, get_prop_opt requestBody "password" = JStr password ->
                           password = "") ->
         answers (result_of (AdminLogin.handler event w)) 400 AdminLogin.corsHeaders
           (JObj [("message", JStr "Password is required")])
         /\ world_of (AdminLogin.handler event w) = w
         /\ calls_of (AdminLogin.handler event w) = [])
        /\ (forall password,
              get_prop_opt requestBody "password" = JStr password -> password <> "" ->
              (result_of (Secrets.getAdminPassword w) = Returns JNull ->
               answers (result_of (AdminLogin.handler event w)) 500 AdminLogin.corsHeaders
                 (JObj [("message", JStr "Admin password is not configured")]))
              /\ (forall expected,
                    result_of (Secrets.getAdminPassword w) = Returns expected ->
                    expected <> JNull -> expected <> JStr password ->
                    answers (result_of (AdminLogin.handler event w)) 401
                      AdminLogin.corsHeaders
                      (JObj [("message", JStr "Invalid credentials")])))).
Proof.
  destruct (quiet_getAdminPassword w) as (expected & cache & calls & Hrun & Hexp & Hpc & Hsc).
  unfold AdminLogin.handler.
  destruct (String.eqb (httpMethod event) "OPTIONS") eqn:Hopt.
  { split; [by eexists|]. split; [done|]. split; [done|].
    intros Hpost. rewrite Hpost in Hopt. discriminate. }
  destruct (String.eqb (httpMethod event) "POST") eqn:Hpost; cbn [negb].
  2: { split; [by eexists|]. split; [done|]. split; [done|].
       intros Hp. rewrite Hp in Hpost. discriminate. }
  destruct (origin_differs _ _) eqn:Horigin.
  { split; [by eexists|]. split; [done|]. split; [done|].
    intros _ Ho. apply origin_allowed in Ho. congruence. }
  destruct (GetAccessCode.parse_body event) as [requestBody|].
  2: { split; [by eexists|]. split; [done|]. split; [done|]. by intros _ _ ?. }
  destruct (get_prop_opt requestBody "password") as [| | | |p| |] eqn:Hp.
  1-4, 6-7: (split; [by eexists|]; split; [done|]; split; [done|];
             intros _ _ ? [= <-]; rewrite Hp; split;
             [intros _; split; [apply answers_login|done] | by intros ?]).
  destruct p as [|c p'].
  { split; [by eexists|]. split; [done|]. split; [done|].
    intros _ _ ? [= <-]. rewrite Hp. split;
      [intros _; split; [apply answers_login|done] | by intros ? [= <-]]. }
  cbn [typeof]. rewrite String.eqb_refl. cbn [negb orb String.length Nat.eqb].
  rewrite (bind_run _ _ _ _ _ _ Hrun), Hrun.
  unfold result_of, calls_of. cbn [fst snd].
  split; [|split; [|split]].
  - destruct (truthy expected); [destruct (strict_eq _ expected)|]; by eexists.
  - destruct (truthy expected); [destruct (strict_eq _ expected)|];
      cbn [negb ret snd]; by rewrite app_nil_r.
  - destruct (truthy expected); [destruct (strict_eq _ expected)|];
      cbn [negb ret snd]; by rewrite app_nil_r.
  - intros _ _ ? [= <-]. rewrite Hp. split.
    + intros Hempty. by specialize (Hempty _ eq_refl).
    + intros password [= <-] _. split.
      * intros [= ->]. apply answers_login.
      * intros expected' [= <-] Hnn Hne.
        destruct Hexp as [-> | ->]; [done|]. cbn [negb].
        destruct (strict_eq (JStr (String c p')) expected) eqn:Heq;
          [|apply answers_login].
        by apply strict_eq_string in Heq.
Qed.

End Admin.

Lemma admin_login_accepts_exactly_the_password_witness :
  @answers sample_admin_json
    (result_of (@AdminLogin.handler sample_admin_json (sample_login_event (JStr "s3cret"))
                  sample_world_admin))
    200 AdminLogin.corsHeaders (JObj [("ok", JBool true)]).
Proof.
  apply (proj2 (@admin_login_accepts_exactly_the_password sample_admin_json _ _)
           (JObj [("password", JStr "s3cret")]) "s3cret");
    try (vm_compute; reflexivity); done.
Defined.

Lemma admin_login_failures_witness :
  @answers sample_admin_json
    (result_of (@AdminLogin.handler sample_admin_json (sample_login_event (JStr "guess"))
                  sample_world_admin))
    401 AdminLogin.corsHeaders (JObj [("message", JStr "Invalid credentials")]).
Proof.
  destruct (@admin_login_failures sample_admin_json (sample_login_event (JStr "guess"))
              sample_world_admin) as (_ & _ & _ & Hcases).
  destruct (Hcases eq_refl eq_refl (JObj [("password", JStr "guess")]) eq_refl)
    as [_ Hgiven].
  destruct (Hgiven "guess" eq_refl ltac:(done)) as [_ Hwrong].
  apply (Hwrong (JStr "s3cret")); [vm_compute; reflexivity | done | done].
Defined.

(** ** The admin surface: password extraction and the tests list *)

Lemma dot_plus_to_end_nonempty (s : string) : AdminTests.dot_plus_to_end s = true -> s <> "".
Proof. by destruct s. Qed.

Lemma spaces_then_capture_some (s captured : string) :
  AdminTests.spaces_then_capture s = Some captured ->
  AdminTests.dot_plus_to_end captured = true.
Proof.
  induction s as [|c rest IH]; [done|]. cbn [AdminTests.spaces_then_capture].
  destruct (AdminTests.is_space c).
  - destruct (AdminTests.spaces_then_capture rest) as [inner|].
    + intros [= <-]. by apply IH.
    + destruct (AdminTests.dot_plus_to_end (String c rest)) eqn:Hd; [|done].
      by intros [= <-].
  - destruct (AdminTests.dot_plus_to_end (String c rest)) eqn:Hd; [|done].
    by intros [= <-].
Qed.

Lemma spaces_then_capture_token (spaces : list ascii) (c : ascii) (rest : string) :
  Forall (fun a => AdminTests.is_space a = true) spaces ->
  AdminTests.is_space c = false ->
  AdminTests.dot_plus_to_end (String c rest) = true ->
  AdminTests.spaces_then_capture (string_of_list_ascii spaces ++ String c rest)
  = Some (String c rest).
Proof.
  intros Hspaces Hc Hdots. induction Hspaces as [|a spaces Ha _ IH].
  - simpl string_of_list_ascii. change ("" ++ String c rest) with (String c rest).
    cbn [AdminTests.spaces_then_capture]. by rewrite Hc, Hdots.
  - simpl string_of_list_ascii.
    change (String a (string_of_list_ascii spaces) ++ String c rest)
      with (String a (string_of_list_ascii spaces ++ String c rest)).
    cbn [AdminTests.spaces_then_capture]. by rewrite Ha, IH.
Qed.

Lemma strip_prefix_ci_append (prefix scheme rest : string) :
  AdminTests.strip_prefix_ci prefix scheme = Some "" ->
  AdminTests.strip_prefix_ci prefix (scheme ++ rest) = Some rest.
Proof.
  revert scheme. induction prefix as [|p prefix IH]; intros scheme; simpl.
  - by intros [= ->].
  - destruct scheme as [|c scheme]; [done|]. simpl.
    destruct (Ascii.eqb _ _); [apply IH|done].
Qed.

(** X21: where the admin password is read from.  [extractPassword] never
    returns an empty password.  A non-empty [x-admin-password] header (or,
    failing it, [X-Admin-Password]) is the password, whatever the
    Authorization header says.  Without it, an Authorization header made
    of the word Bearer in any letter case, one or more white-space
    characters, and a credential that starts with a non-space character
    and has no line break yields exactly that credential; an Authorization
    header that does not start with Bearer yields nothing. *)
Theorem extractPassword_sources (event : APIGatewayProxyEvent) :
  (forall password, AdminTests.extractPassword event = Some password -> password <> "")
  /\ (forall password,
        header_either event "x-admin-password" "X-Admin-Password" = Some password ->
        password <> "" ->
        AdminTests.extractPassword event = Some password)
  /\ (forall scheme spaces c rest,
        (header_either event "x-admin-password" "X-Admin-Password" = None
         \/ header_either event "x-admin-password" "X-Admin-Password" = Some "") ->
        header_either event "authorization" "Authorization"
          = Some (scheme ++ string_of_list_ascii spaces ++ String c rest) ->
        AdminTests.strip_prefix_ci "Bearer" scheme = Some "" ->
        spaces <> [] ->
        Forall (fun a => AdminTests.is_space a = true) spaces ->
        AdminTests.is_space c = false ->
        AdminTests.dot_plus_to_end (String c rest) = true ->
        AdminTests.extractPassword event = Some (String c rest))
  /\ (forall authHeader,
        (header_either event "x-admin-password" "X-Admin-Password" = None
         \/ header_either event "x-admin-password" "X-Admin-Password" = Some "") ->
        header_either event "authorization" "Authorization" = Some authHeader ->
        AdminTests.strip_prefix_ci "Bearer" authHeader = None ->
        AdminTests.extractPassword event = None).
Proof.
  assert (Hbearer : forall a p, AdminTests.match_bearer a = Some p -> p <> "").
  { intros a p. unfold AdminTests.match_bearer.
    destruct (AdminTests.strip_prefix_ci "Bearer" a) as [[|c rest]|]; try done.
    destruct (AdminTests.is_space c); [|done].
    intros Hm. apply spaces_then_capture_some in Hm. by apply dot_plus_to_end_nonempty. }
  unfold AdminTests.extractPassword. split; [|split; [|split]].
  - intros password.
    destruct (header_either event "x-admin-password" "X-Admin-Password") as [p|].
    + destruct (String.eqb p "") eqn:Hp; simpl.
      * destruct (header_either event "authorization" "Authorization") as [a|]; [|done].
        destruct (String.eqb a ""); [done|]. apply Hbearer.
      * intros [= <-]. by apply String.eqb_neq.
    + destruct (header_either event "authorization" "Authorization") as [a|]; [|done].
      destruct (String.eqb a ""); [done|]. apply Hbearer.
  - intros password -> Hne. apply String.eqb_neq in Hne. by rewrite Hne.
  - intros scheme spaces c rest Hnone Hauth Hscheme Hne Hspaces Hc Hdots.
    assert (Hmatch : AdminTests.match_bearer
                       (scheme ++ string_of_list_ascii spaces ++ String c rest)
                     = Some (String c rest)).
    { unfold AdminTests.match_bearer. rewrite (strip_prefix_ci_append _ _ _ Hscheme).
      destruct spaces as [|a spaces]; [done|].
      apply Forall_cons in Hspaces as [Ha Hspaces]. simpl string_of_list_ascii.
      change (String a (string_of_list_ascii spaces) ++ String c rest)
        with (String a (string_of_list_ascii spaces ++ String c rest)).
      cbv beta iota. rewrite Ha. by apply spaces_then_capture_token. }
    assert (Hnonempty : String.eqb (scheme ++ string_of_list_ascii spaces ++ String c rest) ""
                        = false).
    { apply String.eqb_neq. intros Hempty. rewrite Hempty in Hmatch. done. }
    rewrite Hauth, Hnonempty, Hmatch. by destruct Hnone as [-> | ->].
  - intros authHeader Hnone Hauth Hscheme.
    assert (Hmatch : AdminTests.match_bearer authHeader = None)
      by (unfold AdminTests.match_bearer; by rewrite Hscheme).
    rewrite Hauth, Hmatch. destruct Hnone as [-> | ->]; simpl;
      by destruct (String.eqb authHeader "").
Qed.

Lemma extractPassword_sources_witness :
  AdminTests.extractPassword (request (sample_tests_event "bearer   s3cret"))
  = Some "s3cret".
Proof.
  destruct (extractPassword_sources (request (sample_tests_event "bearer   s3cret")))
    as (_ & _ & Hbearer & _).
  apply (Hbearer "bearer" [" "; " "; " "]%char "s"%char "3cret");
    try reflexivity; try done.
  - left. reflexivity.
  - repeat constructor.
Defined.

Section AdminTestsProperties.
Context `{JSON} `{URLAPI}.

Lemma extractPassword_nonempty (event : APIGatewayProxyEvent) (password : string) :
  AdminTests.extractPassword event = Some password -> String.eqb password "" = false.
Proof.
  assert (Hbearer : forall a p, AdminTests.match_bearer a = Some p -> p <> "").
  { intros a p. unfold AdminTests.match_bearer.
    destruct (AdminTests.strip_prefix_ci "Bearer" a) as [[|c rest]|]; try done.
    destruct (AdminTests.is_space c); [|done].
    intros Hm. apply spaces_then_capture_some in Hm. by apply dot_plus_to_end_nonempty. }
  unfold AdminTests.extractPassword. rewrite String.eqb_neq.
  destruct (header_either event "x-admin-password" "X-Admin-Password") as [p|].
  - destruct (String.eqb p "") eqn:Hp; simpl.
    + destruct (header_either event "authorization" "Authorization") as [a|]; [|done].
      destruct (String.eqb a ""); [done|]. apply Hbearer.
    + intros [= <-]. by apply String.eqb_neq.
  - destruct (header_either event "authorization" "Authorization") as [a|]; [|done].
    destruct (String.eqb a ""); [done|]. apply Hbearer.
Qed.

Lemma getSecret_after_cache (secretName other : string) (w : World) :
  result_of (Secrets.getSecret secretName (world_of (Secrets.getSecret other w)))
  = result_of (Secrets.getSecret secretName w).
Proof.
  rewrite (getSecret_unfold other w).
  destruct (secretsCache w !! other) as [cached|] eqn:Hc; [reflexivity|].
  destruct (secretsManager w other) as [[s|]|] eqn:Hm; try reflexivity.
  destruct (String.eqb s "") eqn:Hs; [reflexivity|].
  unfold world_of. cbn [fst snd]. rewrite !getSecret_unfold. simpl.
  destruct (decide (other = secretName)) as [->|Hne].
  - by rewrite lookup_insert_eq, Hc, Hm, Hs.
  - rewrite lookup_insert_ne by done.
    destruct (secretsCache w !! secretName); [done|].
    destruct (secretsManager w secretName) as [[s'|]|]; try done.
    by destruct (String.eqb s' "").
Qed.

Lemma api_key_after_admin_password (w : World) :
  result_of (Secrets.getTestPortalApiKey (world_of (Secrets.getAdminPassword w)))
  = result_of (Secrets.getTestPortalApiKey w).
Proof.
  rewrite (getAdminPassword_run w).
  destruct (env w !! "ADMIN_PASSWORD_SECRET_NAME") as [name|]; [|reflexivity].
  destruct (String.eqb name ""); [reflexivity|].
  unfold world_of at 1. cbn [fst snd].
  rewrite !getTestPortalApiKey_run.
  destruct (quiet_getSecret name w) as (v & cache & calls & Hrun & _).
  assert (Henv : env (world_of (Secrets.getSecret name w)) = env w)
    by (by rewrite Hrun).
  rewrite Henv.
  destruct (env w !! "TESTPORTAL_SECRET_NAME") as [keyName|]; [|reflexivity].
  destruct (String.eqb keyName ""); [reflexivity|].
  unfold result_of at 1 3. cbn [fst]. by rewrite getSecret_after_cache.
Qed.

Lemma tests_url_run (event : APIGatewayProxyQuery) (w : World) :
  exists r : Outcome URL,
    AdminTests.tests_url event w = (r, w, [])
    /\ (forall cache, AdminTests.tests_url event (set_secretsCache cache w)
                      = (r, set_secretsCache cache w, []))
    /\ ((exists e, r = Throws e)
        <-> URL_new (TestPortal.TESTPORTAL_API_URL (env w) ++ "/manager/me/tests/headers")
            = None).
Proof.
  unfold AdminTests.tests_url, Secrets.process_env. run.
  destruct (URL_new _); run.
  - eexists. split; [reflexivity|]. split; [reflexivity|]. split; [by intros [e ?]|done].
  - eexists. split; [reflexivity|]. split; [reflexivity|]. split; [done|by eexists].
Qed.

(** What the handler does once the method, the origin and the presence of
    a password have been checked. *)
Lemma admin_tests_checked (event : APIGatewayProxyQuery) (w : World) (password : string) :
  httpMethod (request event) = "GET" ->
  origin_of (request event) = Some AdminTests.ALLOWED_ORIGIN ->
  AdminTests.extractPassword (request event) = Some password ->
  exists (expected apiKey : JSValue) (c1 c2 : gmap string string) (k1 k2 : list Event),
    Secrets.getAdminPassword w = (Returns expected, set_secretsCache c1 w, k1)
    /\ Secrets.getTestPortalApiKey (set_secretsCache c1 w)
       = (Returns apiKey, set_secretsCache c2 w, k2)
    /\ filter is_provider_call (k1 ++ k2)%list = []
    /\ filter is_store_call (k1 ++ k2)%list = []
    /\ AdminTests.handler event w =
       if negb (truthy expected) then
         (Returns (AdminTests.createResponse 500
                     (JObj [("message", JStr "Admin password is not configured")])),
          set_secretsCache c1 w, k1)
       else if negb (strict_eq (JStr password) expected) then
         (Returns (AdminTests.createResponse 401
                     (JObj [("message", JStr "Invalid credentials")])),
          set_secretsCache c1 w, k1)
       else if negb (truthy apiKey) then
         (Returns (AdminTests.createResponse 500
                     (JObj [("message", JStr "TestPortal API key is not configured")])),
          set_secretsCache c2 w, (k1 ++ k2)%list)
       else
         match result_of (AdminTests.tests_url event w) with
         | Throws e => (Throws e, set_secretsCache c2 w, (k1 ++ k2)%list)
         | Returns u =>
             (Returns (proxy_reply (provider w (tests_request u apiKey))),
              set_secretsCache c2 w,
              (k1 ++ k2 ++ [ProviderFetch (tests_request u apiKey)])%list)
         end.
Proof.
  intros Hget Horigin Hpassword.
  destruct (quiet_getAdminPassword w) as (expected & c1 & k1 & Hadmin & _ & Hp1 & Hs1).
  destruct (quiet_getTestPortalApiKey (set_secretsCache c1 w))
    as (apiKey & c2 & k2 & Hkey & _ & Hp2 & Hs2).
  change (set_secretsCache c2 (set_secretsCache c1 w)) with (set_secretsCache c2 w) in Hkey.
  exists expected, apiKey, c1, c2, k1, k2.
  split; [exact Hadmin|]. split; [exact Hkey|].
  split; [by rewrite filter_app, Hp1, Hp2|]. split; [by rewrite filter_app, Hs1, Hs2|].
  unfold AdminTests.handler. rewrite Hget, Horigin, Hpassword.
  rewrite (extractPassword_nonempty _ _ Hpassword).
  change (String.eqb "GET" "OPTIONS") with false. cbv iota.
  change (negb (String.eqb "GET" "GET")) with false. cbv iota.
  change (origin_differs (Some AdminTests.ALLOWED_ORIGIN) AdminTests.ALLOWED_ORIGIN)
    with false. cbv beta iota zeta.
  destruct (tests_url_run event w) as (r & Hurl & Hurl' & _).
  rewrite Hurl. unfold result_of at 1. cbn [fst].
  unfold bind at 1. rewrite Hadmin.
  destruct (truthy expected); cbn [negb]; [|unfold ret; by rewrite app_nil_r].
  destruct (strict_eq (JStr password) expected); cbn [negb];
    [|unfold ret; by rewrite app_nil_r].
  unfold bind at 1. rewrite Hkey.
  destruct (truthy apiKey); cbn [negb]; [|unfold ret; by rewrite app_nil_r].
  unfold bind at 1. rewrite (Hurl' c2).
  destruct r as [u|e]; [|by rewrite app_nil_r].
  unfold proxy_reply, tests_request, TestPortal.fetch. run.
  destruct (provider w _) as [response|e]; run; [|done].
  destruct (ok response); run.
  - by destruct (json response).
  - by destruct (text response).
Qed.

(** X22: the tests list is only fetched for the right password.  Whenever
    a run of the admin tests handler contains a provider call, the request
    was a GET from the admin origin whose extracted password is the very
    string [getAdminPassword] returns; and no run of this handler touches
    the token store. *)
Theorem admin_tests_requires_password (event : APIGatewayProxyQuery) (w : World) :
  (forall req,
     In (ProviderFetch req) (calls_of (AdminTests.handler event w)) ->
     exists password,
       httpMethod (request event) = "GET"
       /\ origin_of (request event) = Some AdminTests.ALLOWED_ORIGIN
       /\ AdminTests.extractPassword (request event) = Some password
       /\ result_of (Secrets.getAdminPassword w) = Returns (JStr password))
  /\ filter is_store_call (calls_of (AdminTests.handler event w)) = [].
Proof.
  assert (Hnot : forall req calls, filter is_provider_call calls = [] ->
                   ~ In (ProviderFetch req) calls).
  { intros req calls Hnone Hreq.
    assert (Hf : ProviderFetch req ∈ filter is_provider_call calls).
    { apply list_elem_of_filter. split; [done|]. by apply list_elem_of_In. }
    rewrite Hnone in Hf. by apply not_elem_of_nil in Hf. }
  destruct (String.eqb (httpMethod (request event)) "GET") eqn:Hget.
  2: { unfold AdminTests.handler. rewrite Hget.
       destruct (String.eqb (httpMethod (request event)) "OPTIONS"); by split. }
  apply String.eqb_eq in Hget.
  destruct (origin_differs (origin_of (request event)) AdminTests.ALLOWED_ORIGIN) eqn:Horigin.
  { unfold AdminTests.handler. rewrite Hget, Horigin. by split. }
  apply origin_allowed in Horigin.
  destruct (AdminTests.extractPassword (request event)) as [password|] eqn:Hpassword.
  2: { unfold AdminTests.handler. rewrite Hget, Horigin, Hpassword. by split. }
  destruct (admin_tests_checked event w password Hget Horigin Hpassword)
    as (expected & apiKey & c1 & c2 & k1 & k2 & Hadmin & Hkey & Hp & Hs & ->).
  rewrite filter_app in Hp, Hs.
  apply app_eq_nil in Hp as [Hp1 Hp2]. apply app_eq_nil in Hs as [Hs1 Hs2].
  destruct (truthy expected); cbn [negb]; [|split; [intros req Hin; by apply Hnot in Hin|done]].
  destruct (strict_eq (JStr password) expected) eqn:Heq; cbn [negb];
    [|split; [intros req Hin; by apply Hnot in Hin|done]].
  apply strict_eq_string in Heq as ->.
  split.
  - intros req _. exists password. rewrite Hadmin. done.
  - destruct (truthy apiKey); cbn [negb];
      [|unfold calls_of; cbn [snd]; by rewrite filter_app, Hs1, Hs2].
    destruct (result_of (AdminTests.tests_url event w));
      unfold calls_of; cbn [snd]; rewrite !filter_app, Hs1, Hs2; done.
Qed.

(** X23: the tests list is passed through as it is.  For a GET from the
    admin origin with the right password, a configured API key and a base
    URL the URL constructor accepts, the handler sends one request, with
    the key in [Api-Key], to the URL built from the base and the query;
    a success reply with a JSON body is answered with status 200 and the
    serialisation of that same JSON as the body, and a non-success status,
    an unreadable body or a failed request is answered with status 502
    and the serialisation of the failure message. *)
Theorem admin_tests_proxies_reply (event : APIGatewayProxyQuery) (w : World)
    (password : string) (apiKey : JSValue) (u : URL) :
  httpMethod (request event) = "GET" ->
  origin_of (request event) = Some AdminTests.ALLOWED_ORIGIN ->
  AdminTests.extractPassword (request event) = Some password ->
  result_of (Secrets.getAdminPassword w) = Returns (JStr password) ->
  result_of (Secrets.getTestPortalApiKey w) = Returns apiKey ->
  truthy apiKey = true ->
  result_of (AdminTests.tests_url event w) = Returns u ->
  filter is_provider_call (calls_of (AdminTests.handler event w))
    = [ProviderFetch (tests_request u apiKey)]
  /\ (forall response data,
        provider w (tests_request u apiKey) = Returns response ->
        ok response = true -> json response = Returns data ->
        answers (result_of (AdminTests.handler event w)) 200 AdminTests.corsHeaders data)
  /\ ((forall response, provider w (tests_request u apiKey) = Returns response ->
                        ok response = true -> exists e, json response = Throws e) ->
      answers (result_of (AdminTests.handler event w)) 502 AdminTests.corsHeaders
        (JObj [("message", JStr "Failed to retrieve tests list from TestPortal")])).
Proof.
  intros Hget Horigin Hpassword Hexpected Hk Htruthy Hurl.
  destruct (admin_tests_checked event w password Hget Horigin Hpassword)
    as (expected & k & c1 & c2 & k1 & k2 & Hadmin & Hkey & Hp & Hs & ->).
  rewrite Hadmin in Hexpected. injection Hexpected as ->.
  pose proof (api_key_after_admin_password w) as Hsame.
  rewrite Hadmin in Hsame. unfold world_of at 1 in Hsame. cbn [fst snd] in Hsame.
  rewrite Hkey, Hk in Hsame. injection Hsame as ->.
  pose proof (extractPassword_nonempty _ _ Hpassword) as Hne.
  assert (Hself : strict_eq (JStr password) (JStr password) = true)
    by (by apply strict_eq_string).
  cbn [truthy]. rewrite Hne, Hself, Htruthy, Hurl. cbn [negb].
  unfold result_of, calls_of. cbn [fst snd].
  split; [|split].
  - rewrite app_assoc, filter_app, Hp. reflexivity.
  - intros response data -> Hok Hjson. unfold proxy_reply. rewrite Hok, Hjson.
    apply answers_tests.
  - intros Hbad. unfold proxy_reply.
    destruct (provider w (tests_request u apiKey)) as [response|e];
      [|apply answers_tests].
    destruct (ok response) eqn:Hok; [|apply answers_tests].
    destruct (Hbad response eq_refl Hok) as [e ->]. apply answers_tests.
Qed.

(** X24: the one way the admin tests handler can throw.  Every run of the
    handler returns a response, except that an authenticated request with
    a configured API key makes it throw when the URL constructor rejects
    the configured base URL; in that case no provider call has been
    made. *)
Theorem admin_tests_throws_only_on_bad_url (event : APIGatewayProxyQuery) (w : World)
    (e : Exn) :
  result_of (AdminTests.handler event w) = Throws e ->
  URL_new (TestPortal.TESTPORTAL_API_URL (env w) ++ "/manager/me/tests/headers") = None
  /\ filter is_provider_call (calls_of (AdminTests.handler event w)) = []
  /\ (exists password,
        AdminTests.extractPassword (request event) = Some password
        /\ result_of (Secrets.getAdminPassword w) = Returns (JStr password))
  /\ (exists apiKey,
        result_of (Secrets.getTestPortalApiKey w) = Returns apiKey
        /\ truthy apiKey = true).
Proof.
  destruct (String.eqb (httpMethod (request event)) "GET") eqn:Hget.
  2: { unfold AdminTests.handler. rewrite Hget.
       by destruct (String.eqb (httpMethod (request event)) "OPTIONS"). }
  apply String.eqb_eq in Hget.
  destruct (origin_differs (origin_of (request event)) AdminTests.ALLOWED_ORIGIN) eqn:Horigin.
  { unfold AdminTests.handler. by rewrite Hget, Horigin. }
  apply origin_allowed in Horigin.
  destruct (AdminTests.extractPassword (request event)) as [password|] eqn:Hpassword.
  2: { unfold AdminTests.handler. by rewrite Hget, Horigin, Hpassword. }
  destruct (admin_tests_checked event w password Hget Horigin Hpassword)
    as (expected & apiKey & c1 & c2 & k1 & k2 & Hadmin & Hkey & Hp & Hs & ->).
  destruct (truthy expected); cbn [negb]; [|done].
  destruct (strict_eq (JStr password) expected) eqn:Heq; cbn [negb]; [|done].
  apply strict_eq_string in Heq as ->.
  destruct (truthy apiKey) eqn:Htruthy; cbn [negb]; [|done].
  destruct (tests_url_run event w) as (r & Hurl & _ & Hthrows).
  rewrite Hurl. unfold result_of at 2. cbn [fst].
  destruct r as [u|e']; [done|]. intros _.
  split; [apply Hthrows; by eexists|]. split; [exact Hp|]. split.
  - exists password. by rewrite Hadmin.
  - exists apiKey. split; [|exact Htruthy].
    pose proof (api_key_after_admin_password w) as Hsame.
    rewrite Hadmin in Hsame. unfold world_of at 1 in Hsame. cbn [fst snd] in Hsame.
    by rewrite Hkey in Hsame.
Qed.

End AdminTestsProperties.

Lemma admin_tests_requires_password_witness :
  exists password,
    AdminTests.extractPassword (request (sample_tests_event "Bearer s3cret")) = Some password
    /\ result_of (@Secrets.getAdminPassword sample_json sample_world_admin)
       = Returns (JStr password).
Proof.
  assert (Hcall : In (ProviderFetch
                        (@tests_request sample_url
                           "https://www.testportal.com/api/v1/manager/me/tests/headers&name=algebra"
                           (JStr "live-key")))
                     (calls_of (@AdminTests.handler sample_json sample_url
                                  (sample_tests_event "Bearer s3cret") sample_world_admin)))
    by (vm_compute; auto).
  destruct (proj1 (@admin_tests_requires_password sample_json sample_url
                     (sample_tests_event "Bearer s3cret") sample_world_admin) _ Hcall)
    as (password & _ & _ & Hpassword & Hexpected).
  exists password. by split.
Defined.

Lemma admin_tests_proxies_reply_witness :
  @answers sample_json
    (result_of (@AdminTests.handler sample_json sample_url
                  (sample_tests_event "Bearer s3cret") sample_world_admin))
    200 AdminTests.corsHeaders (JObj [("tests", JArr [])]).
Proof.
  refine (proj1 (proj2 (@admin_tests_proxies_reply sample_json sample_url
                          (sample_tests_event "Bearer s3cret") sample_world_admin "s3cret"
                          (JStr "live-key")
                          "https://www.testportal.com/api/v1/manager/me/tests/headers&name=algebra"
                          _ _ _ _ _ _ _))
            {| status := 200; statusText := "OK"; text := Returns "";
               json := Returns (JObj [("tests", JArr [])]) |}
            (JObj [("tests", JArr [])]) _ _ _);
    vm_compute; reflexivity.
Defined.

Lemma admin_tests_throws_only_on_bad_url_witness :
  @URL_new sample_url
    (TestPortal.TESTPORTAL_API_URL
       (<[ "TESTPORTAL_API_URL" := "testportal" ]> (env sample_world_admin))
     ++ "/manager/me/tests/headers")
  = None.
Proof.
  refine (proj1 (@admin_tests_throws_only_on_bad_url sample_json sample_url
                   (sample_tests_event "Bearer s3cret")
                   {| Date_now := Date_now sample_world_admin;
                      uuid_source := uuid_source sample_world_admin;
                      uuid_drawn := uuid_drawn sample_world_admin;
                      env := <[ "TESTPORTAL_API_URL" := "testportal" ]>
                               (env sample_world_admin);
                      table := table sample_world_admin;
                      dynamo_fault := dynamo_fault sample_world_admin;
                      secretsManager := secretsManager sample_world_admin;
                      secretsCache := secretsCache sample_world_admin;
                      provider := provider sample_world_admin |}
                   (JsError "TypeError" "Invalid URL") _)).
  vm_compute. reflexivity.
Defined.

(** ** What the exchange hands out *)

(** X25: no access code without a valid token.  The exchange handler
    never throws and answers with one of the statuses 204, 405, 403, 400,
    401, 502 and 200; and it answers 200, be it with a provider code or
    with the mock code, only to an accepted request whose token
    [validateToken] accepted in the world of the call. *)
Theorem access_code_requires_valid_token `{JSON} (event : APIGatewayProxyEvent) (w : World) :
  exists resp : APIGatewayProxyResult,
    result_of (GetAccessCode.handler event w) = Returns resp
    /\ In (statusCode resp) [204; 405; 403; 400; 401; 502; 200]%Z
    /\ (statusCode resp = 200%Z ->
        exists tok testId,
          accepted event = Some (tok, testId)
          /\ result_of (Tokens.validateToken (JStr tok) w) = Returns true).
Proof.
  assert (Hrespond : forall result,
            statusCode (respond result) = 502%Z \/ statusCode (respond result) = 200%Z).
  { intros result. unfold respond. destruct (TestPortal.success result); simpl; auto. }
  destruct (accepted event) as [[tok testId]|] eqn:Hacc.
  - destruct (quiet_getTestPortalApiKey w) as (apiKey & cache & kcalls & Hkey & _).
    rewrite (handler_accepted _ _ _ _ Hacc), (exchange_run _ _ _ _ _ _ Hkey).
    destruct (result_of (Tokens.validateToken (JStr tok) w)) as [[|]|e] eqn:Hv.
    + destruct (truthy apiKey); eexists; (split; [reflexivity|]);
        (split; [|intros _; by exists tok, testId]).
      * destruct (Hrespond (interpret_reply
                              (provider (set_secretsCache cache w)
                                 (provider_request (set_secretsCache cache w) testId apiKey))))
          as [-> | ->]; simpl; auto 10.
      * simpl. auto 10.
    + eexists. split; [reflexivity|]. split; [simpl; auto 10|]. done.
    + eexists. split; [reflexivity|]. split; [simpl; auto 10|]. done.
  - unfold GetAccessCode.handler.
    unfold accepted in Hacc.
    destruct (String.eqb (httpMethod event) "OPTIONS");
      [eexists; split; [reflexivity|]; split; [simpl; auto 10|done]|].
    destruct (String.eqb (httpMethod event) "POST"); cbn [negb andb] in *;
      [|eexists; split; [reflexivity|]; split; [simpl; auto 10|done]].
    destruct (origin_differs _ _); cbn [negb] in *;
      [eexists; split; [reflexivity|]; split; [simpl; auto 10|done]|].
    destruct (GetAccessCode.parse_body event) as [requestBody|];
      [|eexists; split; [reflexivity|]; split; [simpl; auto 10|done]].
    destruct (GetAccessCode.validateRequestBody requestBody); cbn [negb];
      [|eexists; split; [reflexivity|]; split; [simpl; auto 10|done]].
    destruct (get_prop_opt requestBody "token");
      try (eexists; split; [reflexivity|]; split; [simpl; auto 10|done]).
    destruct (get_prop_opt requestBody "testId");
      try (eexists; split; [reflexivity|]; split; [simpl; auto 10|done]).
    done.
Qed.

Lemma access_code_requires_valid_token_witness :
  exists tok testId,
    @accepted sample_json (sample_event sample_body) = Some (tok, testId)
    /\ result_of (Tokens.validateToken (JStr tok) sample_world_issued) = Returns true.
Proof.
  destruct (@access_code_requires_valid_token sample_json (sample_event sample_body)
              sample_world_issued) as (resp & Hrun & _ & Hok).
  vm_compute in Hrun. injection Hrun as <-.
  exact (Hok eq_refl).
Defined.
